(** * Keboola MCP server: service clients and composition tools

    A shallow embedding of [keboola_mcp_server/client.py] and
    [keboola_mcp_server/tools/components/tools.py].

    Python values are embedded as the inductive [value]; a Python [dict] is a
    [gmap string value]; a Python [str] is a [string] whose characters are
    the code points below 256.  Code that talks to the outside (httpx, the
    kbcstorage SDK, the MCP context, the logger) runs in the monad [M]: it
    reads the answers of the outside from an environment [Env], appends every
    interaction to a trace of [Event]s, and either returns or raises. *)

From Stdlib Require Import SpecFloat.
From stdpp Require Import gmap strings list fin_maps.

#[local] Open Scope string_scope.
#[local] Open Scope list_scope.
#[local] Open Scope nat_scope.
#[local] Open Scope stdpp_scope.
#[local] Set Warnings "-register-all".

(** ** Python values *)

Inductive value : Type :=
  | VNone
  | VBool (b : bool)
  | VInt (z : Z)
  | VFloat (x : spec_float)
  | VStr (s : string)
  | VList (l : list value)
  | VDict (d : gmap string value).

(** [x is None] *)
Definition is_None (v : value) : bool :=
  match v with VNone => true | _ => false end.

(** Truth value of an object, as tested by [if x:] and [x or y]. *)
Definition truthy (v : value) : bool :=
  match v with
  | VNone => false
  | VBool b => b
  | VInt z => negb (z =? 0)%Z
  | VFloat x => match x with S754_zero _ => false | _ => true end
  | VStr s => negb (String.eqb s "")
  | VList l => match l with [] => false | _ => true end
  | VDict d => match map_to_list d with [] => false | _ => true end
  end.

Definition opt_str (o : option string) : value :=
  match o with Some s => VStr s | None => VNone end.

Definition str_list (l : list string) : value := VList (VStr <$> l).

Definition opt_str_list (o : option (list string)) : value :=
  match o with Some l => str_list l | None => VNone end.

(** Subscripting a value that is expected to be a dict, [v[k]], where the
    answer matters and not the exception. *)
Definition item (v : value) (k : string) : option value :=
  match v with VDict d => d !! k | _ => None end.

Fixpoint path (v : value) (ks : list string) : option value :=
  match ks with
  | [] => Some v
  | k :: ks' => match item v k with Some v' => path v' ks' | None => None end
  end.

(** ** HTTP messages (httpx) *)

Inductive Method := GET | POST | PUT | DELETE.

(** How a payload is handed to httpx: [json=...] serialises it as a JSON
    body, [data=...] sends a mapping as form fields. *)
Inductive Body :=
  | NoBody
  | JsonBody (payload : gmap string value)
  | FormBody (payload : gmap string value).

Record Request := {
  method : Method;
  url : string;
  req_headers : gmap string string;
  params : option (gmap string value);
  body : Body;
}.

(** [json_body] is what [response.json()] yields: [None] when the content is
    not JSON-decodable. *)
Record Response := {
  status_code : Z;
  text : string;
  json_body : option value;
}.

(** [httpx.Response.is_success] *)
Definition is_success (r : Response) : bool :=
  (200 <=? status_code r)%Z && (status_code r <=? 299)%Z.

(** ** Exceptions and outcomes *)

Inductive exn : Type :=
  | IndexError (msg : string)
  | KeyError (key : string)
  | AssertionError (msg : string)
  | AttributeError (name : string)
  | TypeError (msg : string)
  | ValueError (msg : string)
  | ValidationError (msg : string)
  | JSONDecodeError
  | HTTPStatusError (response : Response)
  | TransportError (msg : string)
  | ExternalError (msg : string).

Inductive Outcome (A : Type) : Type :=
  | Return (a : A)
  | Raise (e : exn).
Arguments Return {A} a.
Arguments Raise {A} e.

#[global] Instance Outcome_ret : MRet Outcome := fun A a => Return a.
#[global] Instance Outcome_bind : MBind Outcome := fun A B f m =>
  match m with Return a => f a | Raise e => Raise e end.

(** ** Python strings *)

Module Str.

(** [s.startswith(p)] *)
Fixpoint startswith (s p : string) {struct p} : bool :=
  match p with
  | EmptyString => true
  | String a p' =>
      match s with
      | EmptyString => false
      | String b s' => Ascii.eqb a b && startswith s' p'
      end
  end.

(** [s.startswith((p1, p2, ...))] *)
Definition startswith_any (s : string) (ps : list string) : bool :=
  existsb (startswith s) ps.

(** [s.find(sub)]: the lowest index at which [sub] occurs, [None] for -1. *)
Fixpoint find (s sub : string) : option nat :=
  if startswith s sub then Some 0
  else match s with
       | EmptyString => None
       | String _ s' => S <$> find s' sub
       end.

(** [s[:n]] and [s[n:]] *)
Fixpoint take (n : nat) (s : string) : string :=
  match n, s with
  | S n', String a s' => String a (take n' s')
  | _, _ => EmptyString
  end.

Fixpoint drop (n : nat) (s : string) : string :=
  match n, s with
  | S n', String _ s' => drop n' s'
  | _, _ => s
  end.

(** The loop of [s.split(sep)]: cut at the next occurrence of [sep] and go
    on behind it.  [fuel] bounds the number of cuts; the length of [s] is
    enough ([split_fuel_enough]). *)
Fixpoint split_fuel (fuel : nat) (s sep : string) : list string :=
  match find s sep with
  | None => [s]
  | Some i =>
      match fuel with
      | O => [s]
      | S fuel' =>
          take i s :: split_fuel fuel' (drop (i + String.length sep) s) sep
      end
  end.

(** [s.split(sep)] *)
Definition split (s sep : string) : Outcome (list string) :=
  if String.eqb sep "" then Raise (ValueError "empty separator")
  else Return (split_fuel (String.length s) s sep).

(** [str.isspace] on one character, which is what [str.strip()] removes.
    Of the code points below 256 Python counts as white space 9 to 13 (tab,
    line feed, vertical tab, form feed, carriage return), 28 to 31 (the
    separators), 32 (space), 133 (next line) and 160 (no-break space). *)
Definition is_space (a : Ascii.ascii) : bool :=
  let n := Ascii.nat_of_ascii a in
  ((9 <=? n)%nat && (n <=? 13)%nat) || ((28 <=? n)%nat && (n <=? 32)%nat)
  || (n =? 133)%nat || (n =? 160)%nat.

Fixpoint lstrip (s : string) : string :=
  match s with
  | String a s' => if is_space a then lstrip s' else s
  | EmptyString => EmptyString
  end.

(** [rstrip], right to left: a character is kept when it is not white
    space or something is kept behind it. *)
Fixpoint rstrip (s : string) : string :=
  match s with
  | EmptyString => EmptyString
  | String a s' =>
      match rstrip s' with
      | EmptyString => if is_space a then EmptyString else String a EmptyString
      | r => String a r
      end
  end.

(** [s.strip()] *)
Definition strip (s : string) : string := rstrip (lstrip s).

End Str.

(** [l[i]] on a list *)
Definition list_index {A} (l : list A) (i : nat) : Outcome A :=
  match l !! i with
  | Some x => Return x
  | None => Raise (IndexError "list index out of range")
  end.

(** ** Interactions with the outside *)

(** The pydantic classes of [tools/components/model.py]. *)
Inductive ModelClass := ComponentConfiguration | DataApp | DataAppConfiguration.

Inductive Event : Type :=
  (** one request sent by an [httpx.AsyncClient] *)
  | EHttp (r : Request)
  (** [storage_client_sync.configurations.detail(component_id, configuration_id)] *)
  | ESdkConfigurationDetail (component_id configuration_id : string)
  (** [ctx.generate(prompt)] *)
  | EGenerate (prompt : string)
  (** [get_sql_dialect(ctx)] *)
  | ESqlDialect
  (** [_get_component_details(client, component_id)] *)
  | EComponentDetails (component_id : string)
  (** [_retrieve_components_configurations_by_ids(client, ids)] *)
  | ERetrieveByIds (ids : list string)
  (** [_retrieve_components_configurations_by_types(client, types)] *)
  | ERetrieveByTypes (types : list string)
  (** [LOG.info(f'...')]: the text of the f-string and its fields *)
  | ELogInfo (msg : string) (fields : list value)
  (** [LOG.exception(f'...: {e}')] *)
  | ELogException (msg : string) (e : exn).

(** What the code under verification does not contain: the remote services,
    the libraries, and the modules of the repository that the tools import
    ([tools/sql.py], [tools/components/utils.py], [tools/components/model.py]).
    An answer may depend on everything that happened before it. *)
Record Env := {
  (** the network: a response, or a transport failure *)
  http : list Event → Request → Outcome Response;
  (** kbcstorage *)
  sdk_configuration_detail : list Event → string → string → Outcome value;
  (** the generative capability of the MCP context *)
  ctx_generate : list Event → string → Outcome value;
  (** [tools/sql.py] *)
  sql_dialect : list Event → Outcome string;
  (** [tools/components/utils.py] *)
  component_details : list Event → string → Outcome value;
  configurations_by_ids : list Event → list string → Outcome (list value);
  configurations_by_types : list Event → list string → Outcome (list value);
  _handle_component_types : list string → list string;
  _get_sql_transformation_id_from_sql_dialect : string → Outcome string;
  _get_transformation_configuration :
    list string → string → list string → Outcome (gmap string value);
  (** [tools/components/model.py]: validation of the fields of a model *)
  validate : ModelClass → gmap string value → Outcome (gmap string value);
}.

(** ** The monad of effectful code *)

Definition M (A : Type) : Type := Env → list Event → Outcome A * list Event.

#[global] Instance M_ret : MRet M := fun A a _ tr => (Return a, tr).
#[global] Instance M_bind : MBind M := fun A B f m w tr =>
  match m w tr with
  | (Return a, tr') => f a w tr'
  | (Raise e, tr') => (Raise e, tr')
  end.

Definition lift {A} (o : Outcome A) : M A := fun _ tr => (o, tr).

Definition raise {A} (e : exn) : M A := lift (Raise e).

(** Ask the outside: the event is recorded, the answer is the one the
    environment gives after the history so far. *)
Definition perform {A} (ev : Event) (answer : Env → list Event → Outcome A) : M A :=
  fun w tr => (answer w tr, tr ++ [ev]).

(** [try: body  except Exception as e: handler(e)] *)
Definition try_except {A} (body : M A) (handler : exn → M A) : M A :=
  fun w tr =>
    match body w tr with
    | (Return a, tr') => (Return a, tr')
    | (Raise e, tr') => handler e w tr'
    end.

Definition ask {A} (f : Env → A) : M A := fun w tr => (Return (f w), tr).

Module LOG.
Definition info (msg : string) (fields : list value) : M unit :=
  perform (ELogInfo msg fields) (fun _ _ => Return tt).
Definition exception (msg : string) (e : exn) : M unit :=
  perform (ELogException msg e) (fun _ _ => Return tt).
End LOG.

(** ** httpx *)

Module httpx.
Definition request (r : Request) : M Response :=
  perform (EHttp r) (fun w tr => http w tr r).

(** [response.raise_for_status()] *)
Definition raise_for_status (r : Response) : M unit :=
  if is_success r then mret tt else raise (HTTPStatusError r).

(** [response.json()] *)
Definition json (r : Response) : M value :=
  match json_body r with
  | Some v => mret v
  | None => raise JSONDecodeError
  end.
End httpx.

(** ** pydantic models *)

Module Model.
(** Construction of a model from keyword arguments and
    [Class.model_validate(fields)] *)
Definition create (c : ModelClass) (fields : gmap string value)
  : M (gmap string value) :=
  fun w tr => (validate w c fields, tr).

Definition model_dump (m : gmap string value) : value := VDict m.

Definition getattr (m : gmap string value) (name : string) : Outcome value :=
  match m !! name with
  | Some v => Return v
  | None => Raise (AttributeError name)
  end.
End Model.

(** Unpacking with two stars, in a dict literal or in a call, needs a
    mapping. *)
Definition as_mapping (v : value) : Outcome (gmap string value) :=
  match v with
  | VDict d => Return d
  | _ => Raise (TypeError "argument after ** must be a mapping")
  end.

(** A call with an unpacked mapping followed by explicit keywords: a keyword
    given twice is a [TypeError]. *)
Fixpoint keywords (d : gmap string value) (kws : list (string * value))
  : Outcome (gmap string value) :=
  match kws with
  | [] => Return d
  | (k, v) :: kws' =>
      match d !! k with
      | Some _ => Raise (TypeError "got multiple values for keyword argument")
      | None => keywords (<[k := v]> d) kws'
      end
  end.

(** ** client.py *)

Module RawKeboolaClient.

Record t := {
  base_api_url : string;
  headers : gmap string string;
}.

Definition __init__ (base_api_url api_token : string)
    (headers : option (gmap string string)) : t :=
  let defaults : gmap string string :=
    <["X-StorageApi-Token" := api_token]>
      (<["Content-Type" := "application/json"]>
         (<["Accept-encoding" := "gzip"]> ∅)) in
  {| base_api_url := base_api_url;
     headers := default ∅ headers ∪ defaults |}.

(** [self.headers | (headers or {})]: the right operand wins. *)
Definition merged_headers (self : t) (extra : option (gmap string string))
  : gmap string string :=
  default ∅ extra ∪ headers self.

Definition get (self : t) (endpoint : string)
    (params : option (gmap string value))
    (headers : option (gmap string string)) : M value :=
  let headers := merged_headers self headers in
  response ← httpx.request
    {| method := GET;
       url := base_api_url self +:+ "/" +:+ endpoint;
       req_headers := headers;
       params := params;
       body := NoBody |};
  httpx.raise_for_status response;;
  httpx.json response.

Definition post (self : t) (endpoint : string)
    (data : option (gmap string value))
    (headers : option (gmap string string)) : M value :=
  let headers := merged_headers self headers in
  response ← httpx.request
    {| method := POST;
       url := base_api_url self +:+ "/" +:+ endpoint;
       req_headers := headers;
       params := None;
       body := JsonBody (default ∅ data) |};
  httpx.raise_for_status response;;
  httpx.json response.

Definition put (self : t) (endpoint : string)
    (data : option (gmap string value))
    (headers : option (gmap string string)) : M value :=
  let headers := merged_headers self headers in
  response ← httpx.request
    {| method := PUT;
       url := base_api_url self +:+ "/" +:+ endpoint;
       req_headers := headers;
       params := None;
       body := FormBody (default ∅ data) |};
  httpx.raise_for_status response;;
  httpx.json response.

Definition delete (self : t) (endpoint : string)
    (headers : option (gmap string string)) : M value :=
  let headers := merged_headers self headers in
  response ← httpx.request
    {| method := DELETE;
       url := base_api_url self +:+ "/" +:+ endpoint;
       req_headers := headers;
       params := None;
       body := NoBody |};
  httpx.raise_for_status response;;
  httpx.json response.

End RawKeboolaClient.

Module KeboolaServiceClient.

Record t := { raw_client : RawKeboolaClient.t }.

Definition create (root_url token : string) : t :=
  {| raw_client := RawKeboolaClient.__init__ root_url token None |}.

Definition get (self : t) (endpoint : string)
    (params : option (gmap string value)) : M value :=
  RawKeboolaClient.get (raw_client self) endpoint params None.

Definition post (self : t) (endpoint : string)
    (data : option (gmap string value)) : M value :=
  RawKeboolaClient.post (raw_client self) endpoint data None.

Definition put (self : t) (endpoint : string)
    (data : option (gmap string value)) : M value :=
  RawKeboolaClient.put (raw_client self) endpoint data None.

Definition delete (self : t) (endpoint : string) : M value :=
  RawKeboolaClient.delete (raw_client self) endpoint None.

End KeboolaServiceClient.

Module AsyncStorageClient.
(** [version] defaults to ['v2']. *)
Definition create (root_url token version : string) : KeboolaServiceClient.t :=
  {| KeboolaServiceClient.raw_client :=
       RawKeboolaClient.__init__
         (root_url +:+ "/" +:+ version +:+ "/storage") token None |}.
End AsyncStorageClient.

Module JobsQueueClient.

Definition create (root_url token : string) : KeboolaServiceClient.t :=
  {| KeboolaServiceClient.raw_client :=
       RawKeboolaClient.__init__ root_url token None |}.

Definition get_job_detail (self : KeboolaServiceClient.t) (job_id : string)
  : M value :=
  RawKeboolaClient.get (KeboolaServiceClient.raw_client self)
    ("jobs/" +:+ job_id) None None.

Definition _search (self : KeboolaServiceClient.t)
    (params : gmap string value) : M value :=
  RawKeboolaClient.get (KeboolaServiceClient.raw_client self)
    "search/jobs" (Some params) None.

(** The defaults of the signature: [limit=100], [offset=0],
    [sort_by='startTime'], [sort_order='desc']. *)
Definition default_limit : Z := 100.
Definition default_offset : Z := 0.
Definition default_sort_by : option string := Some "startTime".
Definition default_sort_order : option string := Some "desc".

(** The dict literal of [search_jobs_by], before the comprehension. *)
Definition search_params (component_id config_id : option string)
    (status : option (list string)) (limit offset : Z)
    (sort_by sort_order : option string) : gmap string value :=
  <["componentId" := opt_str component_id]>
    (<["configId" := opt_str config_id]>
       (<["status" := opt_str_list status]>
          (<["limit" := VInt limit]>
             (<["offset" := VInt offset]>
                (<["sortBy" := opt_str sort_by]>
                   (<["sortOrder" := opt_str sort_order]> ∅)))))).

Definition search_jobs_by (self : KeboolaServiceClient.t)
    (component_id config_id : option string)
    (status : option (list string)) (limit offset : Z)
    (sort_by sort_order : option string) : M value :=
  let params :=
    search_params component_id config_id status limit offset sort_by sort_order in
  let params := filter (λ kv, is_None kv.2 = false) params in
  _search self params.

Definition create_job (self : KeboolaServiceClient.t)
    (component_id configuration_id : string) : M value :=
  let payload : gmap string value :=
    <["component" := VStr component_id]>
      (<["config" := VStr configuration_id]>
         (<["mode" := VStr "run"]> ∅)) in
  RawKeboolaClient.post (KeboolaServiceClient.raw_client self)
    "jobs" (Some payload) None.

End JobsQueueClient.

Module AIServiceClient.

Definition create (root_url token : string) : KeboolaServiceClient.t :=
  {| KeboolaServiceClient.raw_client :=
       RawKeboolaClient.__init__ root_url token None |}.

Definition get_component_detail (self : KeboolaServiceClient.t)
    (component_id : string) : M value :=
  KeboolaServiceClient.get self ("docs/components/" +:+ component_id) None.

End AIServiceClient.

(** [kbcstorage.client.Client]: of the SDK client the tools read
    [_branch_id] and call [configurations.detail]. *)
Record SyncStorageClient := {
  _branch_id : string;
}.

(** [kbcstorage.client.Client(api_domain, token)]: the endpoints the
    constructor builds refuse an empty root URL and an empty token; the
    branch is ['default'] unless given.  Nothing is sent. *)
Definition new_SyncStorageClient (api_domain token : string)
  : Outcome SyncStorageClient :=
  if String.eqb api_domain "" then Raise (ValueError "Root URL is required.")
  else if String.eqb token "" then Raise (ValueError "Token is required.")
  else Return {| _branch_id := "default" |}.

Module KeboolaClient.

Definition STATE_KEY := "sapi_client".
Definition _PREFIX_STORAGE_API_URL := "connection.".
Definition _PREFIX_QUEUE_API_URL := "https://queue.".
Definition _PREFIX_AISERVICE_API_URL := "https://ai.".

Record t := {
  token : string;
  storage_client_sync : SyncStorageClient;
  storage_client : KeboolaServiceClient.t;
  jobs_queue_client : KeboolaServiceClient.t;
  ai_service_client : KeboolaServiceClient.t;
}.

(** What the session state may hold under a key: a facade, or an object of
    another class, given by the text it is formatted to in an f-string. *)
Inductive state_object :=
  | Instance_ (c : t)
  | Other (shown : string).

Definition from_state (state : gmap string state_object) : Outcome t :=
  match state !! STATE_KEY with
  | None => Raise (KeyError STATE_KEY)
  | Some (Instance_ c) => Return c
  | Some (Other shown) =>
      Raise (AssertionError ("Expected KeboolaClient, got: " +:+ shown))
  end.

Definition default_storage_api_url := "https://connection.keboola.com".

(** "Ensure the base URL has a scheme" *)
Definition with_scheme (storage_api_url : string) : string :=
  if negb (Str.startswith_any storage_api_url ["http://"; "https://"])
  then "https://" +:+ storage_api_url
  else storage_api_url.

Definition __init__ (storage_api_token storage_api_url : string) : M t :=
  let token := storage_api_token in
  let storage_api_url := with_scheme storage_api_url in
  parts ← lift (Str.split storage_api_url _PREFIX_STORAGE_API_URL);
  rest ← lift (list_index parts 1);
  let queue_api_url := _PREFIX_QUEUE_API_URL +:+ rest in
  parts ← lift (Str.split storage_api_url _PREFIX_STORAGE_API_URL);
  rest ← lift (list_index parts 1);
  let ai_service_api_url := _PREFIX_AISERVICE_API_URL +:+ rest in
  sdk ← lift (new_SyncStorageClient storage_api_url token);
  mret {| token := token;
          storage_client_sync := sdk;
          storage_client := AsyncStorageClient.create storage_api_url token "v2";
          jobs_queue_client := JobsQueueClient.create queue_api_url token;
          ai_service_client := AIServiceClient.create ai_service_api_url token |}.

End KeboolaClient.

(** The MCP [Context]: [ctx.session.state]. *)
Record Context := {
  session_state : gmap string KeboolaClient.state_object;
}.

(** ** The modules the tools import

    [tools/sql.py] and [tools/components/utils.py] are answered by the
    environment; a call leaves one event in the trace. *)

Definition get_sql_dialect (ctx : Context) : M string :=
  perform ESqlDialect (fun w tr => sql_dialect w tr).

Definition _get_component_details (client : KeboolaClient.t)
    (component_id : string) : M value :=
  perform (EComponentDetails component_id)
    (fun w tr => component_details w tr component_id).

Definition _retrieve_components_configurations_by_ids
    (client : KeboolaClient.t) (component_ids : list string) : M (list value) :=
  perform (ERetrieveByIds component_ids)
    (fun w tr => configurations_by_ids w tr component_ids).

Definition _retrieve_components_configurations_by_types
    (client : KeboolaClient.t) (component_types : list string) : M (list value) :=
  perform (ERetrieveByTypes component_types)
    (fun w tr => configurations_by_types w tr component_types).

(** [client.storage_client_sync.configurations.detail(...)] *)
Definition configurations_detail (sdk : SyncStorageClient)
    (component_id configuration_id : string) : M value :=
  perform (ESdkConfigurationDetail component_id configuration_id)
    (fun w tr => sdk_configuration_detail w tr component_id configuration_id).

(** ** tools/components/tools.py: read tools *)

(** [not seq] *)
Definition is_empty {A} (l : list A) : bool :=
  match l with [] => true | _ => false end.

Definition retrieve_components_configurations (ctx : Context)
    (component_types component_ids : list string) : M (list value) :=
  if is_empty component_ids then
    client ← lift (KeboolaClient.from_state (session_state ctx));
    component_types ← ask (fun w => _handle_component_types w component_types);
    _retrieve_components_configurations_by_types client component_types
  else
    client ← lift (KeboolaClient.from_state (session_state ctx));
    _retrieve_components_configurations_by_ids client component_ids.

Definition retrieve_transformations_configurations (ctx : Context)
    (transformation_ids : list string) : M (list value) :=
  if is_empty transformation_ids then
    client ← lift (KeboolaClient.from_state (session_state ctx));
    _retrieve_components_configurations_by_types client ["transformation"]
  else
    client ← lift (KeboolaClient.from_state (session_state ctx));
    _retrieve_components_configurations_by_ids client transformation_ids.

Definition configs_endpoint (client : KeboolaClient.t) (component_id : string)
  : string :=
  "branch/" +:+ _branch_id (KeboolaClient.storage_client_sync client)
    +:+ "/components/" +:+ component_id +:+ "/configs".

(** The dict handed to [ComponentConfiguration.model_validate]:
    the configuration body, then the three explicit keys. *)
Definition configuration_detail_fields (raw_configuration : gmap string value)
    (component : value) (component_id : string) (r_metadata : value)
  : gmap string value :=
  <["metadata" := r_metadata]>
    (<["component_id" := VStr component_id]>
       (<["component" := component]> raw_configuration)).

Definition get_component_configuration_details
    (component_id configuration_id : string) (ctx : Context)
  : M (gmap string value) :=
  client ← lift (KeboolaClient.from_state (session_state ctx));
  component ← _get_component_details client component_id;
  raw_configuration ←
    configurations_detail (KeboolaClient.storage_client_sync client)
      component_id configuration_id;
  LOG.info "Retrieved configuration details for {} component with configuration {}."
    [VStr component_id; VStr configuration_id];;
  let endpoint :=
    configs_endpoint client component_id +:+ "/" +:+ configuration_id
      +:+ "/metadata" in
  r_metadata ←
    KeboolaServiceClient.get (KeboolaClient.storage_client client) endpoint None;
  (if truthy r_metadata then
     LOG.info "Retrieved configuration metadata for {} component with configuration {}."
       [VStr component_id; VStr configuration_id]
   else
     LOG.info "No metadata found for {} component with configuration {}."
       [VStr component_id; VStr configuration_id]);;
  raw ← lift (as_mapping raw_configuration);
  Model.create ComponentConfiguration
    (configuration_detail_fields raw component component_id r_metadata).

(** ** tools/components/tools.py: create tools *)

(** The line feed and the double quote. *)
Definition nl : string := String (Ascii.ascii_of_nat 10) EmptyString.
Definition dq : string := String (Ascii.ascii_of_nat 34) EmptyString.

(** The texts of the two success entries of the log, with [{}] where the
    f-string has a field; both fields stand between double quotes. *)
Definition created_transformation_log : string :=
  "Created new transformation " +:+ dq +:+ "{}" +:+ dq
  +:+ " with configuration id " +:+ dq +:+ "{}" +:+ dq +:+ ".".

Definition created_data_app_log : string :=
  "Created new data app " +:+ dq +:+ "{}" +:+ dq
  +:+ " with configuration id " +:+ dq +:+ "{}" +:+ dq +:+ ".".

Definition create_sql_transformation (ctx : Context) (name description : string)
    (sql_statements created_table_names : list string)
  : M (gmap string value) :=
  sql_dialect ← get_sql_dialect ctx;
  transformation_id ←
    (fun w => lift (_get_sql_transformation_id_from_sql_dialect w sql_dialect) w);
  LOG.info "SQL dialect: {}, using transformation ID: {}"
    [VStr sql_dialect; VStr transformation_id];;
  transformation_configuration_payload ←
    (fun w => lift (_get_transformation_configuration w
                      sql_statements name created_table_names) w);
  client ← lift (KeboolaClient.from_state (session_state ctx));
  let endpoint := configs_endpoint client transformation_id in
  LOG.info "Creating new transformation configuration: {} for component: {}."
    [VStr name; VStr transformation_id];;
  try_except
    (new_raw_transformation_configuration ←
       KeboolaServiceClient.post (KeboolaClient.storage_client client) endpoint
         (Some (<["name" := VStr name]>
                  (<["description" := VStr description]>
                     (<["configuration" :=
                          Model.model_dump transformation_configuration_payload]> ∅))));
     component ← _get_component_details client transformation_id;
     fields ← lift (d ← as_mapping new_raw_transformation_configuration;
                    keywords d [("component_id", VStr transformation_id);
                                ("component", component)]);
     new_transformation_configuration ← Model.create ComponentConfiguration fields;
     configuration_id ←
       lift (Model.getattr new_transformation_configuration "configuration_id");
     LOG.info created_transformation_log
       [VStr transformation_id; configuration_id];;
     mret new_transformation_configuration)
    (fun e =>
       LOG.exception "Error when creating new transformation configuration: {}" e;;
       raise e).

Definition data_app_prompt (name description : string)
    (user_query : option string) : string :=
  "Generate a Streamlit script for a data app named '" +:+ name +:+ "' that "
  +:+ description +:+ ".

User Query: "
  +:+ (match user_query with
       | Some q => if String.eqb q "" then "No specific query provided" else q
       | None => "No specific query provided"
       end)
  +:+ "

Pre-installed Libraries:
- streamlit
- pandas
- numpy
- plotly
- matplotlib
- seaborn
- scikit-learn
- altair
- streamlit-aggrid
- streamlit-authenticator
- streamlit-keboola-api
- pydeck
- extra-streamlit-components

Requirements:
- Use Streamlit for data visualization or interaction
- Include proper error handling
- Add helpful comments
- Follow Python best practices
- Use Keboola's CommonInterface for data access:
   - Use ci = CommonInterface() for data access
   - Use ci.get_input_tables_definitions() to get table definitions
   - Use ci.get_input_tables() to read data
   - Handle table paths and CSV reading properly
- Make the UI clean and user-friendly
- Include data validation and error handling for missing or invalid data
- Add appropriate visualizations based on the data types
- Include filters and interactive elements where appropriate


Please provide only the Python code, no explanations. The code should:
- Initialize Keboola CommonInterface for data access
- Handle the specific data tables mentioned in the user query or description
- Create appropriate visualizations based on the data
- Include proper error handling for data access and processing
- Follow Streamlit best practices for UI/UX
- Use proper Keboola data access patterns".

(** The comprehension over the lines of the response. *)
Definition script_lines_of (response : string) : Outcome (list string) :=
  Str.split response nl ≫= λ lines : list string,
    Return (Str.strip <$>
              filter (λ line : string,
                        negb (String.eqb (Str.strip line) "")
                        && negb (Str.startswith (Str.strip line) "```") = true)
                     lines).

(** What follows the generation call: the check of the response
    ([not response or not isinstance(response, str)]) and the comprehension. *)
Definition script_of_response (response : value) : Outcome (list string) :=
  match response with
  | VStr s =>
      if String.eqb s "" then
        Raise (ValueError "Failed to generate data app from Claude")
      else script_lines_of s
  | _ => Raise (ValueError "Failed to generate data app from Claude")
  end.

Definition _generate_data_app_script (ctx : Context) (name description : string)
    (user_query : option string) : M (list string) :=
  let prompt := data_app_prompt name description user_query in
  response ← perform (EGenerate prompt) (fun w tr => ctx_generate w tr prompt);
  lift (script_of_response response).

Definition default_streamlit_config : gmap string value :=
  {[ "config.toml" :=
       VStr ("[theme]" +:+ nl
             +:+ "font = " +:+ dq +:+ "sans serif" +:+ dq +:+ nl
             +:+ "textColor = " +:+ dq +:+ "#222529" +:+ dq +:+ nl
             +:+ "backgroundColor = " +:+ dq +:+ "#FFFFFF" +:+ dq +:+ nl
             +:+ "secondaryBackgroundColor = " +:+ dq +:+ "#E6F2FF" +:+ dq +:+ nl
             +:+ "primaryColor = " +:+ dq +:+ "#1F8FFF" +:+ dq) ]}.

Definition data_app_authorization : value :=
  VDict {[ "app_proxy" :=
    VDict (<["auth_providers" := VList []]>
             (<["auth_rules" :=
                  VList [VDict (<["type" := VStr "pathPrefix"]>
                                  (<["value" := VStr "/"]>
                                     (<["auth_required" := VBool false]> ∅)))]]> ∅)) ]}.

(** The [configuration] dict literal of [create_data_app]. *)
Definition data_app_configuration (name description slug : string)
    (script : list string) (size : string) (auto_suspend_after_seconds : Z)
    (data_app : gmap string value) : gmap string value :=
  <["name" := VStr name]>
    (<["description" := VStr description]>
       (<["configuration" :=
            VDict (<["parameters" :=
                       VDict (<["size" := VStr size]>
                                (<["autoSuspendAfterSeconds" :=
                                     VInt auto_suspend_after_seconds]>
                                   (<["dataApp" := Model.model_dump data_app]>
                                      (<["id" := VStr slug]>
                                         (<["script" := str_list script]> ∅)))))]>
                     (<["authorization" := data_app_authorization]> ∅))]> ∅)).

(** The keyword arguments of [DataApp(...)]; [streamlit_config or {...}]
    falls back to the default theme. *)
Definition data_app_fields (slug : string) (script : list string) (size : string)
    (auto_suspend_after_seconds : Z)
    (streamlit_config : option (gmap string value)) : gmap string value :=
  <["slug" := VStr slug]>
    (<["script" := str_list script]>
       (<["size" := VStr size]>
          (<["autoSuspendAfterSeconds" := VInt auto_suspend_after_seconds]>
             (<["streamlit" :=
                  VDict (match streamlit_config with
                         | Some c => if truthy (VDict c) then c
                                     else default_streamlit_config
                         | None => default_streamlit_config
                         end)]> ∅)))).

Definition create_data_app (ctx : Context) (name description slug : string)
    (user_query : option string) (script : option (list string))
    (size : string) (auto_suspend_after_seconds : Z)
    (streamlit_config : option (gmap string value))
  : M (gmap string value) :=
  client ← lift (KeboolaClient.from_state (session_state ctx));
  script ←
    (if negb (truthy (opt_str_list script)) then
       script ← _generate_data_app_script ctx name description user_query;
       LOG.info "Generating using agent..." [];;
       mret script
     else mret (default [] script));
  data_app ←
    Model.create DataApp
      (data_app_fields slug script size auto_suspend_after_seconds streamlit_config);
  let configuration :=
    data_app_configuration name description slug script size
      auto_suspend_after_seconds data_app in
  let component_id := "keboola.app-data-app" in
  let endpoint := configs_endpoint client component_id in
  try_except
    (new_raw_configuration ←
       KeboolaServiceClient.post (KeboolaClient.storage_client client) endpoint
         (Some configuration);
     component ← _get_component_details client component_id;
     fields ← lift (d ← as_mapping new_raw_configuration;
                    keywords d [("component_id", VStr component_id);
                                ("component", component);
                                ("data_app", Model.model_dump data_app);
                                ("authorization", data_app_authorization)]);
     new_configuration ← Model.create DataAppConfiguration fields;
     configuration_id ← lift (Model.getattr new_configuration "configuration_id");
     LOG.info created_data_app_log
       [VStr name; configuration_id];;
     mret new_configuration)
    (fun e =>
       LOG.exception "Error when creating new data app configuration: {}" e;;
       raise e).

(** ** client.py: the documentation service *)

(** The strings of a list of values, when all of them are strings. *)
Fixpoint strings_of (l : list value) : option (list string) :=
  match l with
  | [] => Some []
  | VStr s :: l' => cons s <$> strings_of l'
  | _ :: _ => None
  end.

Module DocsQuestionResponse.

Record t := {
  text : string;
  source_urls : list string;
}.

(** [DocsQuestionResponse.model_validate(response)]: [text] is a required
    [str]; [source_urls] is read under its alias [sourceUrls] only, is a
    list of [str], and is the empty list when the key is absent; other keys
    are ignored. *)
Definition model_validate (response : value) : Outcome t :=
  match response with
  | VDict d =>
      match d !! "text" with
      | Some (VStr answer) =>
          match d !! "sourceUrls" with
          | None => Return {| text := answer; source_urls := [] |}
          | Some (VList l) =>
              match strings_of l with
              | Some urls => Return {| text := answer; source_urls := urls |}
              | None => Raise (ValidationError "sourceUrls: Input should be a valid string")
              end
          | Some _ => Raise (ValidationError "sourceUrls: Input should be a valid list")
          end
      | Some _ => Raise (ValidationError "text: Input should be a valid string")
      | None => Raise (ValidationError "text: Field required")
      end
  | _ => Raise (ValidationError "Input should be a valid dictionary")
  end.

End DocsQuestionResponse.

(** [AIServiceClient.docs_question] *)
Definition docs_question (self : KeboolaServiceClient.t) (query : string)
  : M DocsQuestionResponse.t :=
  response ← RawKeboolaClient.post (KeboolaServiceClient.raw_client self)
    "docs/question"
    (Some {[ "query" := VStr query ]})
    (Some {[ "Accept" := "application/json" ]});
  lift (DocsQuestionResponse.model_validate response).

(** ** tools/doc.py *)

Module DocsAnswer.
Record t := {
  text : string;
  source_urls : list string;
}.
End DocsAnswer.

Definition docs_query (ctx : Context) (query : string) : M DocsAnswer.t :=
  client ← lift (KeboolaClient.from_state (session_state ctx));
  answer ← docs_question (KeboolaClient.ai_service_client client) query;
  mret {| DocsAnswer.text := DocsQuestionResponse.text answer;
          DocsAnswer.source_urls := DocsQuestionResponse.source_urls answer |}.

(** ** tools/storage.py *)

(** [x.get(k)] on an arbitrary value: only a dict has the method. *)
Definition value_get (x : value) (k : string) : Outcome value :=
  match x with
  | VDict d => Return (default VNone (d !! k))
  | _ => Raise (AttributeError "get")
  end.

(** [x == s] for a [str] [s] *)
Definition eq_str (x : value) (s : string) : bool :=
  match x with
  | VStr s' => String.eqb s' s
  | _ => false
  end.

Fixpoint chars (s : string) : list value :=
  match s with
  | EmptyString => []
  | String a s' => VStr (String a EmptyString) :: chars s'
  end.

(** The items a [for] loop takes from a value: the elements of a list, the
    characters of a string, the keys of a dict; nothing else is iterable. *)
Definition iterate (x : value) : Outcome (list value) :=
  match x with
  | VList l => Return l
  | VStr s => Return (chars s)
  | VDict d => Return (VStr <$> (map_to_list d).*1)
  | _ => Raise (TypeError "object is not iterable")
  end.

Module UpdateBucketDescriptionResponse.

Record t := {
  success : bool;
  description : string;
  timestamp : string;
}.

(** The validator that runs before the fields are checked. *)
Definition extract_from_response (values : value) : Outcome (gmap string value) :=
  match values with
  | VList (data :: _) =>
      value_get data "value" ≫= λ v : value,
      value_get data "timestamp" ≫= λ ts : value,
      Return (<["success" := VBool true]>
                (<["description" := v]> (<["timestamp" := ts]> ∅)))
  | _ =>
      Raise (ValueError
               "Expected input data in UpdateBucketDescriptionResponse to be non-empty list.")
  end.

(** The check of the fields: [success: bool = True], [description: str],
    [timestamp: str]. *)
Definition validate_fields (d : gmap string value) : Outcome t :=
  match default (VBool true) (d !! "success"), d !! "description", d !! "timestamp" with
  | VBool b, Some (VStr desc), Some (VStr ts) =>
      Return {| success := b; description := desc; timestamp := ts |}
  | _, _, _ => Raise (ValidationError "Input should be a valid string")
  end.

(** [model_validate]: pydantic reports a [ValueError] of a validator as a
    [ValidationError]; other exceptions pass through. *)
Definition model_validate (response : value) : Outcome t :=
  match extract_from_response response with
  | Return d => validate_fields d
  | Raise (ValueError msg) => Raise (ValidationError msg)
  | Raise e => Raise e
  end.

End UpdateBucketDescriptionResponse.

Module UpdateTableDescriptionResponse.

Record t := {
  success : bool;
  description : string;
  timestamp : string;
}.

Definition extract_metadata (values : value) : Outcome (gmap string value) :=
  match values with
  | VDict d =>
      match default (VList []) (d !! "metadata") with
      | VList (entry :: _) =>
          value_get entry "value" ≫= λ v : value,
          value_get entry "timestamp" ≫= λ ts : value,
          Return (<["success" := VBool true]>
                    (<["description" := v]> (<["timestamp" := ts]> ∅)))
      | _ =>
          Raise (ValueError
                   ("Expected input data in UpdateTableDescriptionResponse to have non-empty list in "
                    +:+ dq +:+ "metadata" +:+ dq +:+ " field."))
      end
  | _ => Raise (AttributeError "get")
  end.

Definition validate_fields (d : gmap string value) : Outcome t :=
  match default (VBool true) (d !! "success"), d !! "description", d !! "timestamp" with
  | VBool b, Some (VStr desc), Some (VStr ts) =>
      Return {| success := b; description := desc; timestamp := ts |}
  | _, _, _ => Raise (ValidationError "Input should be a valid string")
  end.

Definition model_validate (response : value) : Outcome t :=
  match extract_metadata response with
  | Return d => validate_fields d
  | Raise (ValueError msg) => Raise (ValidationError msg)
  | Raise e => Raise e
  end.

End UpdateTableDescriptionResponse.

Section StorageTools.

(** [MetadataField.DESCRIPTION.value], a constant of [config.py]. *)
Variable DESCRIPTION : string.

(** The generator of [extract_description], driven by [next(..., None)]:
    items are looked at one by one and the search stops at the first
    match. *)
Fixpoint next_description (metadata : list value) : Outcome value :=
  match metadata with
  | [] => Return VNone
  | item :: rest =>
      value_get item "key" ≫= λ k : value,
      if eq_str k DESCRIPTION then
        value_get item "value" ≫= λ v : value,
        if truthy v then Return v else next_description rest
      else next_description rest
  end.

Definition extract_description (values : gmap string value) : Outcome value :=
  let description := default VNone (values !! "description") in
  if truthy description then Return description
  else
    let metadata := default (VList []) (values !! "metadata") in
    iterate metadata ≫= next_description.

(** The payload of both description updates. *)
Definition description_update (description : string) : gmap string value :=
  <["provider" := VStr "user"]>
    (<["metadata" :=
         VList [VDict (<["key" := VStr DESCRIPTION]>
                         (<["value" := VStr description]> ∅))]]> ∅).

Definition update_bucket_description (bucket_id description : string)
    (ctx : Context) : M UpdateBucketDescriptionResponse.t :=
  client ← lift (KeboolaClient.from_state (session_state ctx));
  let metadata_endpoint := "buckets/" +:+ bucket_id +:+ "/metadata" in
  let data := description_update description in
  response ← KeboolaServiceClient.post (KeboolaClient.storage_client client)
               metadata_endpoint (Some data);
  lift (UpdateBucketDescriptionResponse.model_validate response).

Definition update_table_description (table_id description : string)
    (ctx : Context) : M UpdateTableDescriptionResponse.t :=
  client ← lift (KeboolaClient.from_state (session_state ctx));
  let metadata_endpoint := "tables/" +:+ table_id +:+ "/metadata" in
  let data := description_update description in
  response ← KeboolaServiceClient.post (KeboolaClient.storage_client client)
               metadata_endpoint (Some data);
  lift (UpdateTableDescriptionResponse.model_validate response).

End StorageTools.

(** ** Vocabulary of the statements *)

(** [sub] occurs somewhere in [s]. *)
Definition occurs_in (sub s : string) : Prop :=
  ∃ pre post, s = pre +:+ sub +:+ post.

(** [s] is [pre], then [sub], then [post], and no occurrence of [sub] in [s]
    starts further left. *)
Definition first_occurrence (sub s pre post : string) : Prop :=
  s = pre +:+ sub +:+ post ∧
  ∀ pre' post', s = pre' +:+ sub +:+ post' → String.length pre ≤ String.length pre'.

(** [sub] occurs in [s] at one place only, between [pre] and [post]. *)
Definition only_occurrence (sub s pre post : string) : Prop :=
  s = pre +:+ sub +:+ post ∧
  ∀ pre' post', s = pre' +:+ sub +:+ post' → pre' = pre.

(** All the indices at which [sub] occurs in [s]. *)
Definition positions (s sub : string) : list nat :=
  filter (λ i, Str.startswith (Str.drop i s) sub = true)
         (seq 0 (S (String.length s))).

(** The text between the first and the second occurrence of [sep] in [s],
    up to the end when there is no second one; [i] is the index of the
    first. *)
Definition second_field (s sep : string) (i : nat) : string :=
  let rest := Str.drop (i + String.length sep) s in
  match Str.find rest sep with
  | None => rest
  | Some j => Str.take j rest
  end.

(** The roots the facade hands to its clients. *)
Definition queue_root (c : KeboolaClient.t) : string :=
  RawKeboolaClient.base_api_url
    (KeboolaServiceClient.raw_client (KeboolaClient.jobs_queue_client c)).

Definition ai_root (c : KeboolaClient.t) : string :=
  RawKeboolaClient.base_api_url
    (KeboolaServiceClient.raw_client (KeboolaClient.ai_service_client c)).

(** The requests among the events [evs], in their order. *)
Definition requests (evs : list Event) : list Request :=
  omap (λ ev, match ev with EHttp r => Some r | _ => None end) evs.

(** What a verb of the raw client makes of the answer of the network:
    [raise_for_status], then [json]. *)
Definition response_outcome (o : Outcome Response) : Outcome value :=
  match o with
  | Raise e => Raise e
  | Return r =>
      if is_success r then
        match json_body r with
        | Some v => Return v
        | None => Raise JSONDecodeError
        end
      else Raise (HTTPStatusError r)
  end.

(** The contract of one call of the raw transport: one request [q] is sent
    and nothing else happens; a transport failure is passed on; a status
    outside 200..299 raises the error that carries the response; a status
    inside it returns the decoded body when the body is JSON, and raises the
    decoding error when it is not. *)
Definition status_contract (call : M value) (w : Env) (tr : list Event)
    (q : Request) : Prop :=
  (call w tr).2 = tr ++ [EHttp q]
  ∧ (∀ e, http w tr q = Raise e → (call w tr).1 = Raise e)
  ∧ (∀ r, http w tr q = Return r →
          ((status_code r < 200 ∨ 299 < status_code r)%Z →
           (call w tr).1 = Raise (HTTPStatusError r))
          ∧ ((200 ≤ status_code r ≤ 299)%Z →
             (∀ v, json_body r = Some v → (call w tr).1 = Return v)
             ∧ (json_body r = None → (call w tr).1 = Raise JSONDecodeError))).

(** The upstream field names of the job search. *)
Definition search_keys : list string :=
  ["componentId"; "configId"; "status"; "limit"; "offset"; "sortBy"; "sortOrder"].

(** The requests of the tools. *)
Definition configs_post (client : KeboolaClient.t) (component_id : string)
    (data : gmap string value) : Request :=
  let raw := KeboolaServiceClient.raw_client (KeboolaClient.storage_client client) in
  {| method := POST;
     url := RawKeboolaClient.base_api_url raw +:+ "/"
            +:+ configs_endpoint client component_id;
     req_headers := RawKeboolaClient.merged_headers raw None;
     params := None;
     body := JsonBody data |}.

Definition metadata_get (client : KeboolaClient.t)
    (component_id configuration_id : string) : Request :=
  let raw := KeboolaServiceClient.raw_client (KeboolaClient.storage_client client) in
  {| method := GET;
     url := RawKeboolaClient.base_api_url raw +:+ "/"
            +:+ (configs_endpoint client component_id +:+ "/"
                 +:+ configuration_id +:+ "/metadata");
     req_headers := RawKeboolaClient.merged_headers raw None;
     params := None;
     body := NoBody |}.


(** The history in front of the metadata fetch of
    [get_component_configuration_details]. *)
Definition before_metadata (tr : list Event)
    (component_id configuration_id : string) : list Event :=
  tr ++ [EComponentDetails component_id;
         ESdkConfigurationDetail component_id configuration_id;
         ELogInfo "Retrieved configuration details for {} component with configuration {}."
           [VStr component_id; VStr configuration_id]].

(** The [try] statement that ends both create tools, as a function of the
    answers of the outside: the POST [q], the component details, the local
    composition [finish] of the result; each failure is followed by the log
    entry of the handler and by nothing else. *)
Definition attempt_run {A} (w : Env) (tr : list Event) (q : Request)
    (component_id msg : string)
    (finish : value → value → Outcome (A * list Event))
  : Outcome A * list Event :=
  match response_outcome (http w tr q) with
  | Raise e => (Raise e, tr ++ [EHttp q; ELogException msg e])
  | Return new_raw =>
      match component_details w (tr ++ [EHttp q]) component_id with
      | Raise e =>
          (Raise e,
           tr ++ [EHttp q; EComponentDetails component_id; ELogException msg e])
      | Return component =>
          match finish new_raw component with
          | Raise e =>
              (Raise e,
               tr ++ [EHttp q; EComponentDetails component_id;
                      ELogException msg e])
          | Return (a, logs) =>
              (Return a, tr ++ [EHttp q; EComponentDetails component_id] ++ logs)
          end
      end
  end.

(** The local composition of the result of [create_data_app] and of
    [create_sql_transformation], with the log entry of the success. *)
Definition data_app_finish (w : Env) (name : string)
    (data_app : gmap string value) (new_raw component : value)
  : Outcome (gmap string value * list Event) :=
  as_mapping new_raw ≫= λ d : gmap string value,
  keywords d [("component_id", VStr "keboola.app-data-app");
              ("component", component);
              ("data_app", Model.model_dump data_app);
              ("authorization", data_app_authorization)]
  ≫= λ fields : gmap string value,
  validate w DataAppConfiguration fields ≫= λ new_configuration : gmap string value,
  Model.getattr new_configuration "configuration_id" ≫= λ configuration_id : value,
  Return (new_configuration,
          [ELogInfo created_data_app_log
             [VStr name; configuration_id]]).

Definition sql_finish (w : Env) (transformation_id : string)
    (new_raw component : value) : Outcome (gmap string value * list Event) :=
  as_mapping new_raw ≫= λ d : gmap string value,
  keywords d [("component_id", VStr transformation_id); ("component", component)]
  ≫= λ fields : gmap string value,
  validate w ComponentConfiguration fields ≫= λ new_configuration : gmap string value,
  Model.getattr new_configuration "configuration_id" ≫= λ configuration_id : value,
  Return (new_configuration,
          [ELogInfo created_transformation_log
             [VStr transformation_id; configuration_id]]).



Definition no_generate (evs : list Event) : Prop :=
  ∀ prompt, EGenerate prompt ∉ evs.

(** The events that follow the POST of a create tool: the lookup of the
    component and the entries of the log. *)
Definition is_follow_up (ev : Event) : Prop :=
  match ev with
  | EComponentDetails _ | ELogInfo _ _ | ELogException _ _ => True
  | _ => False
  end.


(** The code points below 256 that Python takes for white space. *)
Definition white_space : list nat :=
  [9; 10; 11; 12; 13; 28; 29; 30; 31; 32; 133; 160].

(** All the characters of [s] are white space. *)
Fixpoint blank (s : string) : bool :=
  match s with
  | EmptyString => true
  | String c r => Str.is_space c && blank r
  end.

(** [s] neither starts nor ends with white space. *)
Definition trimmed (s : string) : Prop :=
  (∀ c r, s = String c r → Str.is_space c = false)
  ∧ (∀ p c, s = p +:+ String c "" → Str.is_space c = false).

(** [t] is [s] without the white space at its two ends. *)
Definition stripped (s t : string) : Prop :=
  ∃ a b, s = a +:+ t +:+ b ∧ blank a = true ∧ blank b = true ∧ trimmed t.

(** [sep.join(fields)] *)
Fixpoint join (sep : string) (fields : list string) : string :=
  match fields with
  | [] => ""
  | f :: rest =>
      match rest with
      | [] => f
      | _ :: _ => f +:+ sep +:+ join sep rest
      end
  end.

(** A line of a generated response that goes into the script: it is not
    blank and, once stripped, does not start with a code fence. *)
Definition kept_line (line : string) : Prop :=
  Str.strip line ≠ "" ∧ Str.startswith (Str.strip line) "```" = false.

#[global] Instance kept_line_dec line : Decision (kept_line line).
Proof. unfold kept_line. apply _. Defined.

(** A facade and a session that holds it. *)
Definition sample_client : KeboolaClient.t :=
  {| KeboolaClient.token := "token";
     KeboolaClient.storage_client_sync := {| _branch_id := "default" |};
     KeboolaClient.storage_client :=
       AsyncStorageClient.create "https://connection.keboola.com" "token" "v2";
     KeboolaClient.jobs_queue_client :=
       JobsQueueClient.create "https://queue.keboola.com" "token";
     KeboolaClient.ai_service_client :=
       AIServiceClient.create "https://ai.keboola.com" "token" |}.

Definition sample_ctx : Context :=
  {| session_state := {[ KeboolaClient.STATE_KEY := KeboolaClient.Instance_ sample_client ]} |}.

(** The header a raw client built for [token] sends under the name [k] when
    nobody overrides it. *)
Definition default_header (token k : string) : option string :=
  if String.eqb k "X-StorageApi-Token" then Some token
  else if String.eqb k "Content-Type" then Some "application/json"
  else if String.eqb k "Accept-encoding" then Some "gzip"
  else None.

(** The header sent under [k]: the header of the call, else the header given
    to the constructor, else the default. *)
Definition header_rule (token : string)
    (init_headers call_headers : option (gmap string string))
    (q : Request) : Prop :=
  ∀ k, req_headers q !! k
       = match default ∅ call_headers !! k with
         | Some v => Some v
         | None =>
             match default ∅ init_headers !! k with
             | Some v => Some v
             | None => default_header token k
             end
         end.

(** [m] sends the request [q] and does nothing else. *)
Definition sends {A} (m : M A) (w : Env) (tr : list Event) (q : Request) : Prop :=
  (m w tr).2 = tr ++ [EHttp q].

(** A metadata item that [extract_description] passes over: a dict whose
    key is not [key] or whose value is falsy. *)
Definition passed_over (key : string) (item : value) : Prop :=
  ∃ d, item = VDict d
       ∧ (eq_str (default VNone (d !! "key")) key = false
          ∨ truthy (default VNone (d !! "value")) = false).

(** An environment in which every service answers 200 with an empty JSON
    object and every helper succeeds; the concrete runs below use it. *)
Definition ok_response : Response :=
  {| status_code := 200; text := "{}"; json_body := Some (VDict ∅) |}.

Definition quiet_env : Env := {|
  http := λ _ _, Return ok_response;
  sdk_configuration_detail := λ _ _ _, Return (VDict ∅);
  ctx_generate := λ _ _, Return (VStr "import streamlit");
  sql_dialect := λ _, Return "snowflake";
  component_details := λ _ _, Return (VDict ∅);
  configurations_by_ids := λ _ _, Return [];
  configurations_by_types := λ _ _, Return [];
  _handle_component_types := λ types, types;
  _get_sql_transformation_id_from_sql_dialect := λ _, Return "keboola.snowflake-transformation";
  _get_transformation_configuration := λ _ _ _, Return ∅;
  validate := λ _ fields, Return fields;
|}.

(** The same environment with an upstream that answers every request with
    500 and the body [boom]. *)
Definition error_response : Response :=
  {| status_code := 500; text := "boom"; json_body := None |}.

Definition failing_env : Env := {|
  http := λ _ _, Return error_response;
  sdk_configuration_detail := sdk_configuration_detail quiet_env;
  ctx_generate := ctx_generate quiet_env;
  sql_dialect := sql_dialect quiet_env;
  component_details := component_details quiet_env;
  configurations_by_ids := configurations_by_ids quiet_env;
  configurations_by_types := configurations_by_types quiet_env;
  _handle_component_types := _handle_component_types quiet_env;
  _get_sql_transformation_id_from_sql_dialect :=
    _get_sql_transformation_id_from_sql_dialect quiet_env;
  _get_transformation_configuration := _get_transformation_configuration quiet_env;
  validate := validate quiet_env;
|}.

(** The same environment with an upstream that answers every request with
    [r]. *)
Definition answering (r : Response) : Env := {|
  http := λ _ _, Return r;
  sdk_configuration_detail := sdk_configuration_detail quiet_env;
  ctx_generate := ctx_generate quiet_env;
  sql_dialect := sql_dialect quiet_env;
  component_details := component_details quiet_env;
  configurations_by_ids := configurations_by_ids quiet_env;
  configurations_by_types := configurations_by_types quiet_env;
  _handle_component_types := _handle_component_types quiet_env;
  _get_sql_transformation_id_from_sql_dialect :=
    _get_sql_transformation_id_from_sql_dialect quiet_env;
  _get_transformation_configuration := _get_transformation_configuration quiet_env;
  validate := validate quiet_env;
|}.

(** [204 No Content]: a success without a body. *)
Definition no_content : Response :=
  {| status_code := 204; text := ""; json_body := None |}.

(** * Facts about the embedding *)

(** ** Strings *)

Section StrFacts.
Implicit Types s p sub sep pre post : string.

Lemma str_app_cons a s r : String a s +:+ r = String a (s +:+ r).
Proof. reflexivity. Qed.

Lemma str_app_nil_l r : "" +:+ r = r.
Proof. reflexivity. Qed.

Ltac str_simpl := simpl; rewrite ?str_app_cons, ?str_app_nil_l; simpl.

Lemma str_app_assoc s1 s2 s3 : (s1 +:+ s2) +:+ s3 = s1 +:+ (s2 +:+ s3).
Proof. induction s1 as [|a s1 IH]; str_simpl; [done | by rewrite IH]. Qed.

Lemma str_length_app s1 s2 :
  String.length (s1 +:+ s2) = String.length s1 + String.length s2.
Proof. induction s1 as [|a s1 IH]; str_simpl; [done | by rewrite IH]. Qed.

Lemma startswith_app p r : Str.startswith (p +:+ r) p = true.
Proof.
  induction p as [|a p IH]; str_simpl; [done |].
  by rewrite Ascii.eqb_refl, IH.
Qed.

Lemma startswith_inv s p :
  Str.startswith s p = true → s = p +:+ Str.drop (String.length p) s.
Proof.
  revert s. induction p as [|a p IH]; intros s H; simpl in *.
  { by destruct s. }
  destruct s as [|b s]; [done |].
  apply andb_true_iff in H as [Hab Hs].
  apply Ascii.eqb_eq in Hab as ->. str_simpl. f_equal. by apply IH.
Qed.

Lemma startswith_length s p :
  Str.startswith s p = true → String.length p ≤ String.length s.
Proof.
  intros H. rewrite (startswith_inv _ _ H), str_length_app. lia.
Qed.

Lemma take_drop n s : Str.take n s +:+ Str.drop n s = s.
Proof.
  revert s. induction n as [|n IH]; intros [|a s]; str_simpl; try done.
  by rewrite IH.
Qed.

Lemma length_drop n s : String.length (Str.drop n s) = String.length s - n.
Proof. revert s. induction n as [|n IH]; intros [|a s]; simpl; auto. Qed.

Lemma length_take n s :
  n ≤ String.length s → String.length (Str.take n s) = n.
Proof.
  revert s. induction n as [|n IH]; intros [|a s]; simpl; intros; try lia.
  rewrite IH; lia.
Qed.

Lemma drop_app pre r : Str.drop (String.length pre) (pre +:+ r) = r.
Proof. induction pre as [|a pre IH]; str_simpl; [by destruct r | done]. Qed.

Lemma take_app pre r : Str.take (String.length pre) (pre +:+ r) = pre.
Proof.
  induction pre as [|a pre IH]; str_simpl; [by destruct r | by rewrite IH].
Qed.

Lemma drop_drop n m s : Str.drop n (Str.drop m s) = Str.drop (m + n) s.
Proof.
  revert s. induction m as [|m IH]; intros s; simpl; [done |].
  destruct s as [|a s]; [by destruct n | apply IH].
Qed.

Lemma str_app_length_inj s1 s2 r1 r2 :
  s1 +:+ r1 = s2 +:+ r2 → String.length s1 = String.length s2 →
  s1 = s2 ∧ r1 = r2.
Proof.
  revert s2. induction s1 as [|a s1 IH]; intros [|b s2]; str_simpl; try done.
  intros [= -> H] [= Hl]. destruct (IH _ H Hl) as [-> ->]. done.
Qed.

(** An occurrence at index [length pre], and back. *)
Lemma occurrence_position s sub pre post :
  s = pre +:+ sub +:+ post →
  Str.startswith (Str.drop (String.length pre) s) sub = true
  ∧ String.length pre + String.length sub ≤ String.length s.
Proof.
  intros ->. rewrite drop_app, startswith_app, !str_length_app. split; [done | lia].
Qed.

Lemma position_occurrence s sub i :
  Str.startswith (Str.drop i s) sub = true → i ≤ String.length s →
  s = Str.take i s +:+ sub +:+ Str.drop (i + String.length sub) s.
Proof.
  intros H Hi. apply startswith_inv in H. rewrite drop_drop in H.
  rewrite <- H. by rewrite take_drop.
Qed.

(** [find] returns the lowest index of an occurrence. *)
Lemma find_Some s sub i :
  Str.find s sub = Some i →
  Str.startswith (Str.drop i s) sub = true ∧ i ≤ String.length s
  ∧ ∀ j, j < i → Str.startswith (Str.drop j s) sub = false.
Proof.
  revert i. induction s as [|a s IH]; intros i; simpl.
  - destruct (Str.startswith "" sub) eqn:E; [|done].
    intros [= <-]. simpl. split_and!; [done | lia | intros; lia].
  - destruct (Str.startswith (String a s) sub) eqn:E.
    + intros [= <-]. simpl. split_and!; [done | lia | intros; lia].
    + destruct (Str.find s sub) as [k|] eqn:F; simpl; [|done].
      intros [= <-]. destruct (IH k eq_refl) as (H1 & H2 & H3).
      simpl. split_and!; [done | lia |].
      intros [|j] Hj; simpl; [done | apply H3; lia].
Qed.

Lemma find_None s sub j :
  Str.find s sub = None → Str.startswith (Str.drop j s) sub = false.
Proof.
  revert j. induction s as [|a s IH]; intros j; simpl.
  - destruct (Str.startswith "" sub) eqn:E; [done |].
    intros _. by destruct j.
  - destruct (Str.startswith (String a s) sub) eqn:E; [done |].
    destruct (Str.find s sub) eqn:F; simpl; [done |].
    intros _. destruct j as [|j]; simpl; [done | by apply IH].
Qed.

Lemma find_Some_bound s sub i :
  Str.find s sub = Some i → i + String.length sub ≤ String.length s.
Proof.
  intros (H & Hi & _)%find_Some. apply startswith_length in H.
  rewrite length_drop in H. lia.
Qed.

Lemma find_occurs s sub : occurs_in sub s ↔ Str.find s sub ≠ None.
Proof.
  split.
  - intros (pre & post & Hs) Hn.
    apply occurrence_position in Hs as [Hs _].
    by rewrite (find_None _ _ _ Hn) in Hs.
  - destruct (Str.find s sub) as [i|] eqn:F; [intros _ | done].
    apply find_Some in F as (H & Hi & _).
    eexists _, _. by apply position_occurrence.
Qed.

Lemma find_first_occurrence s sub i :
  Str.find s sub = Some i →
  first_occurrence sub s (Str.take i s) (Str.drop (i + String.length sub) s).
Proof.
  intros (H & Hi & Hlow)%find_Some. split.
  - by apply position_occurrence.
  - intros pre' post' Hs. rewrite length_take by done.
    apply occurrence_position in Hs as [Hs _].
    destruct (decide (String.length pre' < i)) as [Hlt|]; [|lia].
    by rewrite (Hlow _ Hlt) in Hs.
Qed.

Lemma first_occurrence_find s sub pre post :
  first_occurrence sub s pre post → Str.find s sub = Some (String.length pre).
Proof.
  intros [Hs Hmin].
  destruct (Str.find s sub) as [i|] eqn:F.
  - destruct (find_first_occurrence _ _ _ F) as [Hi Hmin'].
    pose proof (find_Some_bound _ _ _ F).
    specialize (Hmin _ _ Hi). specialize (Hmin' _ _ Hs).
    rewrite length_take in Hmin, Hmin' by lia. f_equal. lia.
  - apply occurrence_position in Hs as [Hs _].
    by rewrite (find_None _ _ _ F) in Hs.
Qed.

Lemma first_occurrence_unique s sub pre post pre' post' :
  first_occurrence sub s pre post → first_occurrence sub s pre' post' →
  pre = pre' ∧ post = post'.
Proof.
  intros [Hs Hmin] [Hs' Hmin'].
  specialize (Hmin _ _ Hs'). specialize (Hmin' _ _ Hs).
  rewrite Hs in Hs'.
  apply str_app_length_inj in Hs' as [-> Hr]; [|lia].
  split; [done |]. by apply (inj (String.append sub)) in Hr.
Qed.

Lemma positions_spec s sub i :
  i ∈ positions s sub ↔
  Str.startswith (Str.drop i s) sub = true ∧ i ≤ String.length s.
Proof.
  unfold positions. rewrite list_elem_of_filter, elem_of_seq. simpl.
  split; intros [? ?]; split; try done; lia.
Qed.

Lemma positions_only s sub i :
  sub ≠ "" → positions s sub = [i] →
  only_occurrence sub s (Str.take i s) (Str.drop (i + String.length sub) s).
Proof.
  intros Hsub Hp.
  assert (Hi : i ∈ positions s sub) by (rewrite Hp; set_solver).
  apply positions_spec in Hi as [Hi Hle]. split.
  - by apply position_occurrence.
  - intros pre' post' Hs.
    pose proof (occurrence_position _ _ _ _ Hs) as [Hocc Hlen].
    assert (Hin : String.length pre' ∈ positions s sub).
    { apply positions_spec. split; [done | lia]. }
    rewrite Hp in Hin. apply list_elem_of_singleton in Hin.
    rewrite <- Hin, Hs. by rewrite take_app.
Qed.

(** ** [split] *)

Lemma split_fuel_absent fuel s sep :
  Str.find s sep = None → Str.split_fuel fuel s sep = [s].
Proof. intros H. destruct fuel; simpl; by rewrite H. Qed.

Lemma split_fuel_cut fuel s sep i :
  Str.find s sep = Some i →
  Str.split_fuel (S fuel) s sep =
  Str.take i s :: Str.split_fuel fuel (Str.drop (i + String.length sep) s) sep.
Proof. intros H. simpl. by rewrite H. Qed.

(** The fuel [split] starts with is never used up. *)
Lemma split_fuel_enough sep :
  sep ≠ "" → ∀ n m s,
    String.length s ≤ n → String.length s ≤ m →
    Str.split_fuel n s sep = Str.split_fuel m s sep.
Proof.
  intros Hsep. assert (0 < String.length sep) by (destruct sep; simpl; [done | lia]).
  induction n as [|n IH]; intros m s Hn Hm.
  - destruct (Str.find s sep) as [i|] eqn:F.
    + apply find_Some_bound in F. lia.
    + by rewrite !split_fuel_absent.
  - destruct (Str.find s sep) as [i|] eqn:F.
    + pose proof (find_Some_bound _ _ _ F).
      destruct m as [|m]; [lia |].
      rewrite !(split_fuel_cut _ _ _ _ F). f_equal.
      apply IH; rewrite length_drop; lia.
    + by rewrite !split_fuel_absent.
Qed.

Lemma split_second s sep i :
  sep ≠ "" → Str.find s sep = Some i →
  ∃ parts, Str.split s sep = Return parts
           ∧ list_index parts 1 = Return (second_field s sep i).
Proof.
  intros Hsep F. unfold Str.split.
  assert (0 < String.length sep) by (destruct sep; simpl; [done | lia]).
  destruct (String.eqb_spec sep "") as [|_]; [done |].
  eexists; split; [done |].
  pose proof (find_Some_bound _ _ _ F) as Hb.
  destruct (String.length s) as [|n] eqn:Hl; [lia |].
  rewrite (split_fuel_cut _ _ _ _ F). unfold second_field.
  destruct (Str.find (Str.drop (i + String.length sep) s) sep) as [j|] eqn:G.
  - pose proof (find_Some_bound _ _ _ G) as Hb'. rewrite length_drop in Hb'.
    destruct n as [|n]; [lia |].
    by rewrite (split_fuel_cut _ _ _ _ G).
  - by rewrite split_fuel_absent.
Qed.

Lemma split_absent s sep :
  sep ≠ "" → Str.find s sep = None →
  ∃ parts, Str.split s sep = Return parts
           ∧ list_index parts 1 = Raise (IndexError "list index out of range").
Proof.
  intros Hsep F. unfold Str.split.
  destruct (String.eqb_spec sep "") as [|_]; [done |].
  eexists; split; [done |]. by rewrite split_fuel_absent.
Qed.

Lemma only_occurrence_first s sub pre post :
  only_occurrence sub s pre post → first_occurrence sub s pre post.
Proof.
  intros [Hs Hu]. split; [done |].
  intros pre' post' Hs'. by rewrite (Hu _ _ Hs').
Qed.

(** With one occurrence only, the second field of the split is all that
    follows it. *)
Lemma only_occurrence_field s sub pre post :
  sub ≠ "" → only_occurrence sub s pre post →
  Str.find s sub = Some (String.length pre)
  ∧ second_field s sub (String.length pre) = post.
Proof.
  intros Hsub Ho.
  assert (0 < String.length sub) by (destruct sub; simpl; [done | lia]).
  split; [by eapply first_occurrence_find, only_occurrence_first |].
  destruct Ho as [Hs Hu]. unfold second_field.
  assert (Hd : Str.drop (String.length pre + String.length sub) s = post).
  { rewrite Hs, <- drop_drop, drop_app. apply drop_app. }
  rewrite Hd.
  destruct (Str.find post sub) as [j|] eqn:F; [exfalso | done].
  apply find_first_occurrence in F as [Hp _].
  specialize (Hu (pre +:+ sub +:+ Str.take j post)
                 (Str.drop (j + String.length sub) post)).
  rewrite !str_app_assoc, <- Hp in Hu. specialize (Hu Hs).
  apply (f_equal String.length) in Hu.
  rewrite !str_length_app in Hu. lia.
Qed.

End StrFacts.

(** ** The monad *)

Section MonadFacts.
Context {A B : Type}.

Lemma bind_lift_Return (a : A) (f : A → M B) w tr :
  (lift (Return a) ≫= f) w tr = f a w tr.
Proof. reflexivity. Qed.

Lemma bind_run (m : M A) (f : A → M B) w tr :
  (m ≫= f) w tr =
  match m w tr with
  | (Return a, tr') => f a w tr'
  | (Raise e, tr') => (Raise e, tr')
  end.
Proof. reflexivity. Qed.

Lemma perform_run ev (answer : Env → list Event → Outcome A) w tr :
  perform ev answer w tr = (answer w tr, tr ++ [ev]).
Proof. reflexivity. Qed.

Lemma try_except_run (body : M A) handler w tr :
  try_except body handler w tr =
  match body w tr with
  | (Return a, tr') => (Return a, tr')
  | (Raise e, tr') => handler e w tr'
  end.
Proof. reflexivity. Qed.
End MonadFacts.

(** ** Facade construction *)

Section Facade.
Import KeboolaClient.

Lemma with_scheme_missing url :
  Str.startswith_any url ["http://"; "https://"] = false →
  with_scheme url = "https://" +:+ url.
Proof. intros H. unfold with_scheme. by rewrite H. Qed.

Lemma with_scheme_idem url : with_scheme (with_scheme url) = with_scheme url.
Proof.
  destruct (Str.startswith_any url ["http://"; "https://"]) eqn:E.
  - unfold with_scheme. rewrite E. cbn [negb]. by rewrite E.
  - rewrite (with_scheme_missing url E). reflexivity.
Qed.

(** Putting the scheme in front moves the occurrences of the marker and
    adds none: no character of ["https://"] starts the marker. *)
Lemma find_marker_scheme url :
  Str.find ("https://" +:+ url) _PREFIX_STORAGE_API_URL
  = (λ i, 8 + i) <$> Str.find url _PREFIX_STORAGE_API_URL.
Proof.
  unfold _PREFIX_STORAGE_API_URL.
  rewrite !str_app_cons, str_app_nil_l. simpl.
  by destruct (Str.find url "connection.").
Qed.

Lemma find_marker_with_scheme url :
  ∃ k, with_scheme url = Str.take k (with_scheme url) +:+ url
       ∧ Str.drop k (with_scheme url) = url
       ∧ Str.find (with_scheme url) _PREFIX_STORAGE_API_URL
         = (λ i, k + i) <$> Str.find url _PREFIX_STORAGE_API_URL.
Proof.
  unfold with_scheme. destruct (negb _).
  - exists 8. rewrite find_marker_scheme. done.
  - exists 0. split_and!; [by destruct url | by destruct url |].
    by destruct (Str.find url _).
Qed.

Lemma second_field_with_scheme url k i :
  Str.drop k (with_scheme url) = url →
  second_field (with_scheme url) _PREFIX_STORAGE_API_URL (k + i)
  = second_field url _PREFIX_STORAGE_API_URL i.
Proof.
  intros Hk. unfold second_field.
  by rewrite <- Nat.add_assoc, <- drop_drop, Hk.
Qed.

Lemma marker_nonempty : _PREFIX_STORAGE_API_URL ≠ "".
Proof. done. Qed.

(** The constructor, run: it raises when the marker does not occur and
    builds the four clients from the second field of the split when it
    does; the trace is left as it was. *)
Lemma init_rejects token url w tr :
  Str.find (with_scheme url) _PREFIX_STORAGE_API_URL = None →
  __init__ token url w tr = (Raise (IndexError "list index out of range"), tr).
Proof.
  intros F. destruct (split_absent _ _ marker_nonempty F) as (parts & Hs & Hi).
  unfold __init__. rewrite Hs, bind_lift_Return, Hi. done.
Qed.

(** The connection URL that reaches the SDK is never empty. *)
Lemma with_scheme_nonempty url : with_scheme url ≠ "".
Proof.
  unfold with_scheme. destruct (negb _) eqn:E; [done |].
  apply negb_false_iff in E. by destruct url.
Qed.

Lemma new_sdk_client url token :
  new_SyncStorageClient (with_scheme url) token
  = if String.eqb token "" then Raise (ValueError "Token is required.")
    else Return {| _branch_id := "default" |}.
Proof.
  unfold new_SyncStorageClient.
  destruct (String.eqb_spec (with_scheme url) "") as [H|_]; [|done].
  by destruct (with_scheme_nonempty url).
Qed.

(** With the marker in the URL, what is left to fail is the constructor of
    the SDK client, which refuses the empty token. *)
Lemma init_run token url w tr i :
  Str.find (with_scheme url) _PREFIX_STORAGE_API_URL = Some i →
  let rest := second_field (with_scheme url) _PREFIX_STORAGE_API_URL i in
  __init__ token url w tr
  = (if String.eqb token "" then Raise (ValueError "Token is required.")
     else Return
            {| token := token;
               storage_client_sync := {| _branch_id := "default" |};
               storage_client :=
                 AsyncStorageClient.create (with_scheme url) token "v2";
               jobs_queue_client :=
                 JobsQueueClient.create (_PREFIX_QUEUE_API_URL +:+ rest) token;
               ai_service_client :=
                 AIServiceClient.create (_PREFIX_AISERVICE_API_URL +:+ rest) token |},
     tr).
Proof.
  intros F rest.
  destruct (split_second _ _ _ marker_nonempty F) as (parts & Hs & Hi).
  unfold __init__.
  rewrite Hs, bind_lift_Return, Hi, !bind_lift_Return, Hi, bind_lift_Return.
  rewrite new_sdk_client. fold rest. by destruct (String.eqb token "").
Qed.

Lemma init_accepts token url w tr i :
  token ≠ "" →
  Str.find (with_scheme url) _PREFIX_STORAGE_API_URL = Some i →
  ∃ c, __init__ token url w tr = (Return c, tr)
       ∧ queue_root c
         = "https://queue." +:+ second_field (with_scheme url) _PREFIX_STORAGE_API_URL i
       ∧ ai_root c
         = "https://ai." +:+ second_field (with_scheme url) _PREFIX_STORAGE_API_URL i.
Proof.
  intros Ht F. rewrite (init_run _ _ _ _ _ F). lazy zeta.
  destruct (String.eqb_spec token "") as [|_]; [done |].
  eexists. split; [reflexivity |]. done.
Qed.

Lemma init_returns token url w tr c tr' :
  __init__ token url w tr = (Return c, tr') →
  token ≠ "" ∧ ∃ i, Str.find (with_scheme url) _PREFIX_STORAGE_API_URL = Some i.
Proof.
  intros H.
  destruct (Str.find (with_scheme url) _PREFIX_STORAGE_API_URL) as [i|] eqn:F.
  2: { by rewrite (init_rejects _ _ _ _ F) in H. }
  rewrite (init_run _ _ _ _ _ F) in H. lazy zeta in H.
  destruct (String.eqb_spec token "") as [|Ht]; [done |]. eauto.
Qed.

End Facade.

Section FacadeClaims.
Import KeboolaClient.

Lemma init_pure token url w tr w' tr' :
  (__init__ token url w tr).1 = (__init__ token url w' tr').1.
Proof.
  unfold __init__.
  destruct (Str.split (with_scheme url) _PREFIX_STORAGE_API_URL) as [parts|e];
    [|done].
  rewrite !bind_lift_Return.
  destruct (list_index parts 1) as [rest|e] eqn:E; [|done].
  rewrite !bind_lift_Return, E, !bind_lift_Return.
  by destruct (new_SyncStorageClient _ _).
Qed.

Lemma init_scheme token url w tr :
  __init__ token (with_scheme url) w tr = __init__ token url w tr.
Proof. unfold __init__. by rewrite with_scheme_idem. Qed.

(** C3, amended.  When the marker ['connection.'] does not occur in the
    connection URL, the constructor of the facade makes no network call
    (it leaves the trace as it found it) and does not complete: taking the
    second field of the split raises [IndexError], so that no facade and no
    derived root exists. *)
Theorem facade_construction_without_marker token url w tr :
  ¬ occurs_in _PREFIX_STORAGE_API_URL url →
  __init__ token url w tr = (Raise (IndexError "list index out of range"), tr).
Proof.
  intros Hn. apply init_rejects.
  destruct (find_marker_with_scheme url) as (k & _ & _ & ->).
  rewrite find_occurs in Hn.
  destruct (Str.find url _PREFIX_STORAGE_API_URL); [|done].
  exfalso. by apply Hn.
Qed.

Lemma facade_construction_without_marker_witness :
  ¬ occurs_in "connection." "https://example.com"
  ∧ __init__ "token" "https://example.com" quiet_env []
    = (Raise (IndexError "list index out of range"), []).
Proof.
  assert (H : ¬ occurs_in _PREFIX_STORAGE_API_URL "https://example.com").
  { rewrite find_occurs. intros H. by apply H. }
  split; [exact H |].
  exact (facade_construction_without_marker "token" _ quiet_env [] H).
Defined.

(** C3 as stated fails: without the marker the construction does not
    complete. *)
Lemma facade_construction_does_not_complete :
  ¬ occurs_in "connection." "https://example.com"
  ∧ ¬ ∃ c tr', __init__ "token" "https://example.com" quiet_env [] = (Return c, tr').
Proof.
  split.
  - rewrite find_occurs. intros H. by apply H.
  - intros (c & tr' & H). vm_compute in H. discriminate H.
Qed.

(** The constructor records nothing, whatever it is given. *)
Lemma init_trace token url w tr : (__init__ token url w tr).2 = tr.
Proof.
  destruct (Str.find (with_scheme url) _PREFIX_STORAGE_API_URL) as [i|] eqn:F.
  - by rewrite (init_run _ _ _ _ _ F).
  - by rewrite (init_rejects _ _ _ _ F).
Qed.

(** C9, at the failing input.  In ['https://connection.a.connection.b'] the
    marker is followed by ['a.connection.b'], and the comment of the
    constructor describes the derivation as removing the prefix and keeping
    what follows.  The constructor accepts the URL and hands
    ['https://queue.a.'] to the job queue and ['https://ai.a.'] to the AI
    service: [split] cuts at every marker, and the second field ends where
    the marker occurs again.  The roots are those of no remainder, neither
    the one behind the first marker nor the one behind the second. *)
Theorem derived_roots_stop_at_second_marker :
  ∃ c, __init__ "token" "https://connection.a.connection.b" quiet_env []
       = (Return c, [])
       ∧ "https://connection.a.connection.b"
         = "https://" +:+ "connection." +:+ "a.connection.b"
       ∧ "https://connection.a.connection.b"
         = "https://connection.a." +:+ "connection." +:+ "b"
       ∧ queue_root c = "https://queue.a."
       ∧ queue_root c ≠ "https://queue." +:+ "a.connection.b"
       ∧ queue_root c ≠ "https://queue." +:+ "b"
       ∧ ai_root c = "https://ai.a."
       ∧ ai_root c ≠ "https://ai." +:+ "a.connection.b"
       ∧ ai_root c ≠ "https://ai." +:+ "b".
Proof. eexists. split; [vm_compute; reflexivity |]. by vm_compute. Qed.

(** C10, at the failing input.  For ['http://connection.a.connection.b']
    the first occurrence of the marker is behind ['http://'] and is followed
    by ['a.connection.b'].  Both derived roots carry [https], but they are
    not the fixed prefixes in front of that remainder: what follows the
    second marker is dropped, and the roots are ['https://queue.a.'] and
    ['https://ai.a.']. *)
Theorem derived_roots_drop_after_second_marker :
  ∃ c, __init__ "token" "http://connection.a.connection.b" quiet_env []
       = (Return c, [])
       ∧ first_occurrence "connection." "http://connection.a.connection.b"
           "http://" "a.connection.b"
       ∧ Str.startswith (queue_root c) "https://" = true
       ∧ Str.startswith (ai_root c) "https://" = true
       ∧ queue_root c = "https://queue.a."
       ∧ queue_root c ≠ "https://queue." +:+ "a.connection.b"
       ∧ ai_root c = "https://ai.a."
       ∧ ai_root c ≠ "https://ai." +:+ "a.connection.b".
Proof.
  eexists. split; [vm_compute; reflexivity |].
  split_and!; try by vm_compute.
  exact (find_first_occurrence "http://connection.a.connection.b"
           "connection." 7 eq_refl).
Qed.

End FacadeClaims.

(** ** The raw transport client *)

Section RawClient.
Import RawKeboolaClient.

Lemma response_outcome_run (q : Request) (k : Response → M value) w tr :
  (∀ r tr', k r w tr' = (response_outcome (Return r), tr')) →
  (httpx.request q ≫= k) w tr = (response_outcome (http w tr q), tr ++ [EHttp q]).
Proof.
  intros Hk. rewrite bind_run. unfold httpx.request. rewrite perform_run.
  destruct (http w tr q) as [r|e]; [apply Hk | done].
Qed.

Lemma after_response r w tr :
  (httpx.raise_for_status r ≫= λ _, httpx.json r) w tr
  = (response_outcome (Return r), tr).
Proof.
  rewrite bind_run. unfold httpx.raise_for_status, httpx.json. simpl.
  destruct (is_success r); [|done]. by destruct (json_body r).
Qed.

Lemma get_run self endpoint params headers w tr :
  let q := {| method := GET;
              url := base_api_url self +:+ "/" +:+ endpoint;
              req_headers := merged_headers self headers;
              params := params;
              body := NoBody |} in
  get self endpoint params headers w tr
  = (response_outcome (http w tr q), tr ++ [EHttp q]).
Proof. intros q. apply response_outcome_run. intros. apply after_response. Qed.

Lemma post_run self endpoint data headers w tr :
  let q := {| method := POST;
              url := base_api_url self +:+ "/" +:+ endpoint;
              req_headers := merged_headers self headers;
              params := None;
              body := JsonBody (default ∅ data) |} in
  post self endpoint data headers w tr
  = (response_outcome (http w tr q), tr ++ [EHttp q]).
Proof. intros q. apply response_outcome_run. intros. apply after_response. Qed.

Lemma put_run self endpoint data headers w tr :
  let q := {| method := PUT;
              url := base_api_url self +:+ "/" +:+ endpoint;
              req_headers := merged_headers self headers;
              params := None;
              body := FormBody (default ∅ data) |} in
  put self endpoint data headers w tr
  = (response_outcome (http w tr q), tr ++ [EHttp q]).
Proof. intros q. apply response_outcome_run. intros. apply after_response. Qed.

Lemma delete_run self endpoint headers w tr :
  let q := {| method := DELETE;
              url := base_api_url self +:+ "/" +:+ endpoint;
              req_headers := merged_headers self headers;
              params := None;
              body := NoBody |} in
  delete self endpoint headers w tr
  = (response_outcome (http w tr q), tr ++ [EHttp q]).
Proof. intros q. apply response_outcome_run. intros. apply after_response. Qed.

Lemma is_success_iff r : is_success r = true ↔ (200 ≤ status_code r ≤ 299)%Z.
Proof. unfold is_success. rewrite andb_true_iff, !Z.leb_le. done. Qed.

Lemma response_outcome_contract (call : M value) w tr q :
  call w tr = (response_outcome (http w tr q), tr ++ [EHttp q]) →
  status_contract call w tr q.
Proof.
  intros H. unfold status_contract. rewrite H. simpl.
  split_and!; [done | by intros e -> |].
  intros r ->. simpl. split.
  - intros Hs. destruct (is_success r) eqn:E; [|done].
    apply is_success_iff in E. lia.
  - intros Hs. apply is_success_iff in Hs. rewrite Hs. split.
    + by intros v ->.
    + by intros ->.
Qed.

(** C4, amended.  Each verb of the raw transport sends exactly one request
    (there is no retry) and passes a failure of the transport on.  When the
    upstream status is not 2xx the call raises the error that carries the
    response, with its status code and body.  When it is 2xx the call
    returns the decoded body if the body is JSON, and raises the decoding
    error of [response.json()] if it is not.  In particular
    [get_job_detail] on a 404 raises the error carrying status 404 and does
    not return. *)
Theorem raw_transport_status self endpoint params data headers w tr :
  (∃ q, method q = GET
        ∧ status_contract (get self endpoint params headers) w tr q)
  ∧ (∃ q, method q = POST
          ∧ status_contract (post self endpoint data headers) w tr q)
  ∧ (∃ q, method q = PUT
          ∧ status_contract (put self endpoint data headers) w tr q)
  ∧ (∃ q, method q = DELETE
          ∧ status_contract (delete self endpoint headers) w tr q)
  ∧ (∀ jobs job_id,
       ∃ q, (JobsQueueClient.get_job_detail jobs job_id w tr).2 = tr ++ [EHttp q]
            ∧ ∀ r, http w tr q = Return r → status_code r = 404%Z →
                   (JobsQueueClient.get_job_detail jobs job_id w tr).1
                   = Raise (HTTPStatusError r)
                   ∧ status_code r = 404%Z).
Proof.
  split_and!.
  - eexists. split; [|apply response_outcome_contract, get_run]. done.
  - eexists. split; [|apply response_outcome_contract, post_run]. done.
  - eexists. split; [|apply response_outcome_contract, put_run]. done.
  - eexists. split; [|apply response_outcome_contract, delete_run]. done.
  - intros jobs job_id. unfold JobsQueueClient.get_job_detail.
    eexists. rewrite get_run. simpl. split; [done |].
    intros r -> Hs. simpl. unfold is_success. rewrite Hs. done.
Qed.

(** C4 as stated fails: a 2xx answer need not have a JSON body.  With
    [204 No Content] as the answer, which is what a DELETE usually gets, no
    verb returns a parsed body: each raises the decoding error. *)
Lemma success_without_json_body :
  let self := __init__ "https://connection.keboola.com/v2/storage" "token" None in
  let w := answering no_content in
  (200 ≤ status_code no_content ≤ 299)%Z
  ∧ delete self "buckets/in.c-old" None w []
    = (Raise JSONDecodeError,
       [EHttp {| method := DELETE;
                 url := "https://connection.keboola.com/v2/storage/buckets/in.c-old";
                 req_headers := headers self;
                 params := None;
                 body := NoBody |}])
  ∧ (get self "buckets/in.c-old" None None w []).1 = Raise JSONDecodeError
  ∧ (post self "buckets/in.c-old" None None w []).1 = Raise JSONDecodeError
  ∧ (put self "buckets/in.c-old" None None w []).1 = Raise JSONDecodeError
  ∧ ¬ ∃ v, (delete self "buckets/in.c-old" None w []).1 = Return v.
Proof.
  intros self w. split; [simpl; lia |]. split_and!.
  - rewrite delete_run. reflexivity.
  - by rewrite get_run.
  - by rewrite post_run.
  - by rewrite put_run.
  - intros [v H]. by rewrite delete_run in H.
Qed.

(** The payload of every [put] travels as form fields, that of every [post]
    as a JSON body. *)
Lemma put_body_is_form self endpoint data headers w tr :
  ∃ q, (put self endpoint data headers w tr).2 = tr ++ [EHttp q]
       ∧ method q = PUT ∧ body q = FormBody (default ∅ data).
Proof. eexists. by rewrite put_run. Qed.

Lemma post_body_is_json self endpoint data headers w tr :
  ∃ q, (post self endpoint data headers w tr).2 = tr ++ [EHttp q]
       ∧ method q = POST ∧ body q = JsonBody (default ∅ data).
Proof. eexists. by rewrite post_run. Qed.

(** C5, at the failing input.  [put] hands its payload to httpx as form
    fields ([data=]) where [post] hands it over as a JSON body ([json=]). *)
Theorem put_sends_form_fields :
  let self := __init__ "https://connection.keboola.com/v2/storage" "token" None in
  let payload : gmap string value := {[ "name" := VStr "demo" ]} in
  (∃ q, (put self "configs/1" (Some payload) None quiet_env []).2 = [EHttp q]
        ∧ body q = FormBody payload ∧ body q ≠ JsonBody payload)
  ∧ (∃ q, (post self "configs/1" (Some payload) None quiet_env []).2 = [EHttp q]
          ∧ body q = JsonBody payload).
Proof.
  intros self payload. split.
  - eexists. rewrite put_run. simpl. done.
  - eexists. rewrite post_run. simpl. done.
Qed.

End RawClient.

(** ** Job search *)

Section JobSearch.
Import JobsQueueClient.

Lemma search_params_lookup component_id config_id status limit offset
    sort_by sort_order :
  let m := search_params component_id config_id status limit offset
             sort_by sort_order in
  m !! "componentId" = Some (opt_str component_id)
  ∧ m !! "configId" = Some (opt_str config_id)
  ∧ m !! "status" = Some (opt_str_list status)
  ∧ m !! "limit" = Some (VInt limit)
  ∧ m !! "offset" = Some (VInt offset)
  ∧ m !! "sortBy" = Some (opt_str sort_by)
  ∧ m !! "sortOrder" = Some (opt_str sort_order)
  ∧ ∀ k, k ∉ search_keys → m !! k = None.
Proof.
  intros m. unfold m, search_params. split_and!; try by simplify_map_eq.
  intros k Hk. unfold search_keys in Hk.
  rewrite !not_elem_of_cons in Hk. destruct_and!.
  by rewrite !lookup_insert_ne, lookup_empty.
Qed.

Lemma filter_not_None_lookup (m : gmap string value) k :
  filter (λ kv : string * value, is_None kv.2 = false) m !! k
  = match m !! k with
    | Some VNone => None
    | o => o
    end.
Proof.
  rewrite map_lookup_filter. destruct (m !! k) as [v|]; [|done].
  simpl. by destruct v.
Qed.

(** C2.  [search_jobs_by] sends one GET to [search/jobs]; its query holds,
    under the upstream names, each of [component_id], [config_id], [status],
    [sort_by] and [sort_order] that is not [None], together with [limit] and
    [offset], and nothing else: no other key and no null value.  The call
    [search_jobs_by(component_id="ex-1", status=["success"], limit=10)]
    sends the six entries of the scenario. *)
Theorem search_jobs_by_query self component_id config_id status limit offset
    sort_by sort_order w tr :
  (∃ q query,
     (search_jobs_by self component_id config_id status limit offset
        sort_by sort_order w tr).2 = tr ++ [EHttp q]
     ∧ method q = GET
     ∧ url q = RawKeboolaClient.base_api_url (KeboolaServiceClient.raw_client self)
               +:+ "/" +:+ "search/jobs"
     ∧ body q = NoBody
     ∧ params q = Some query
     ∧ query !! "componentId" = VStr <$> component_id
     ∧ query !! "configId" = VStr <$> config_id
     ∧ query !! "status" = str_list <$> status
     ∧ query !! "limit" = Some (VInt limit)
     ∧ query !! "offset" = Some (VInt offset)
     ∧ query !! "sortBy" = VStr <$> sort_by
     ∧ query !! "sortOrder" = VStr <$> sort_order
     ∧ (∀ k, k ∉ search_keys → query !! k = None)
     ∧ (∀ k, query !! k ≠ Some VNone))
  ∧ ∃ q,
      (search_jobs_by self (Some "ex-1") None (Some ["success"]) 10
         default_offset default_sort_by default_sort_order w tr).2
      = tr ++ [EHttp q]
      ∧ method q = GET
      ∧ url q = RawKeboolaClient.base_api_url (KeboolaServiceClient.raw_client self)
                +:+ "/" +:+ "search/jobs"
      ∧ params q
        = Some (list_to_map
                  [("componentId", VStr "ex-1");
                   ("status", VList [VStr "success"]);
                   ("limit", VInt 10);
                   ("offset", VInt 0);
                   ("sortBy", VStr "startTime");
                   ("sortOrder", VStr "desc")]).
Proof.
  split.
  - unfold search_jobs_by, _search. rewrite get_run. simpl.
    destruct (search_params_lookup component_id config_id status limit offset
                sort_by sort_order)
      as (H1 & H2 & H3 & H4 & H5 & H6 & H7 & H8).
    eexists _, _. split_and!; try reflexivity;
      try (rewrite filter_not_None_lookup;
           first [rewrite H1 | rewrite H2 | rewrite H3 | rewrite H4
                 | rewrite H5 | rewrite H6 | rewrite H7]).
    + by destruct component_id.
    + by destruct config_id.
    + by destruct status.
    + done.
    + done.
    + by destruct sort_by.
    + by destruct sort_order.
    + intros k Hk. by rewrite filter_not_None_lookup, (H8 k Hk).
    + intros k. rewrite filter_not_None_lookup.
      destruct (search_params _ _ _ _ _ _ _ !! k) as [[]|]; done.
  - unfold search_jobs_by, _search. rewrite get_run. simpl.
    eexists. split_and!; try reflexivity.
Qed.

End JobSearch.

(** ** The tools *)

Section Tools.

Lemma reraise_run {A} (body : M A) msg w tr :
  try_except body (λ e, LOG.exception msg e;; raise e) w tr
  = match body w tr with
    | (Return a, tr') => (Return a, tr')
    | (Raise e, tr') => (Raise e, tr' ++ [ELogException msg e])
    end.
Proof. rewrite try_except_run. by destruct (body w tr) as [[a|e] tr']. Qed.

Lemma service_post_run self endpoint data w tr :
  KeboolaServiceClient.post self endpoint (Some data) w tr
  = (response_outcome
       (http w tr
          {| method := POST;
             url := RawKeboolaClient.base_api_url (KeboolaServiceClient.raw_client self)
                    +:+ "/" +:+ endpoint;
             req_headers :=
               RawKeboolaClient.merged_headers (KeboolaServiceClient.raw_client self) None;
             params := None;
             body := JsonBody data |}),
     tr ++ [EHttp
              {| method := POST;
                 url := RawKeboolaClient.base_api_url (KeboolaServiceClient.raw_client self)
                        +:+ "/" +:+ endpoint;
                 req_headers :=
                   RawKeboolaClient.merged_headers (KeboolaServiceClient.raw_client self) None;
                 params := None;
                 body := JsonBody data |}]).
Proof. unfold KeboolaServiceClient.post. by rewrite post_run. Qed.

(** The [try] statement of the create tools, run. *)
Lemma attempt_run_eq {A} client component_id data msg
    (rest : value → value → M A) finish w tr :
  (∀ v c tr', rest v c w tr'
              = match finish v c with
                | Raise e => (Raise e, tr')
                | Return (a, logs) => (Return a, tr' ++ logs)
                end) →
  try_except
    (new_raw ← KeboolaServiceClient.post (KeboolaClient.storage_client client)
                 (configs_endpoint client component_id) (Some data);
     component ← _get_component_details client component_id;
     rest new_raw component)
    (λ e, LOG.exception msg e;; raise e) w tr
  = attempt_run w tr (configs_post client component_id data) component_id msg finish.
Proof.
  intros Hrest. rewrite reraise_run, bind_run, service_post_run.
  unfold attempt_run. fold (configs_post client component_id data).
  destruct (response_outcome _) as [new_raw|e]; [|by rewrite <- app_assoc].
  rewrite bind_run. unfold _get_component_details. rewrite perform_run.
  destruct (component_details _ _ _) as [component|e];
    [|by rewrite <- !app_assoc].
  rewrite Hrest. destruct (finish new_raw component) as [[a logs]|e].
  - by rewrite <- !app_assoc.
  - by rewrite <- !app_assoc.
Qed.

Lemma attempt_run_trace {A} w tr q component_id msg
    (finish : value → value → Outcome (A * list Event)) :
  (∀ v c a logs, finish v c = Return (a, logs) → Forall is_follow_up logs) →
  ∃ evs, (attempt_run w tr q component_id msg finish).2 = tr ++ EHttp q :: evs
         ∧ Forall is_follow_up evs
         ∧ ∀ e, (attempt_run w tr q component_id msg finish).1 = Raise e →
                last (EHttp q :: evs) = Some (ELogException msg e).
Proof.
  intros Hlogs. unfold attempt_run.
  destruct (response_outcome _) as [new_raw|e].
  2: { eexists. split; [done |]. split; [|by intros ? [= ->]].
       by repeat constructor. }
  destruct (component_details _ _ _) as [component|e].
  2: { eexists. split; [done |]. split; [|by intros ? [= ->]].
       by repeat constructor. }
  destruct (finish new_raw component) as [[a logs]|e] eqn:F.
  2: { eexists. split; [done |]. split; [|by intros ? [= ->]].
       by repeat constructor. }
  eexists. split; [done |]. split; [|done].
  constructor; [done |]. by eapply Hlogs.
Qed.



Lemma follow_up_no_generate evs : Forall is_follow_up evs → no_generate evs.
Proof.
  intros H prompt Hin. rewrite Forall_forall in H. by apply H in Hin.
Qed.

Lemma data_app_finish_logs w name data_app v c a logs :
  data_app_finish w name data_app v c = Return (a, logs) →
  Forall is_follow_up logs.
Proof.
  unfold data_app_finish.
  destruct (as_mapping v) as [d|]; [cbn [mbind Outcome_bind] | done].
  destruct (keywords d _) as [fields|]; [cbn [mbind Outcome_bind] | done].
  destruct (validate w DataAppConfiguration fields) as [new|]; [cbn [mbind Outcome_bind] | done].
  destruct (Model.getattr new _) as [id|]; [cbn [mbind Outcome_bind] | done].
  intros [= _ <-]. by repeat constructor.
Qed.


Ltac unfold_run :=
  unfold mbind, M_bind, Outcome_bind, lift, raise, Model.create, LOG.info,
    LOG.exception, perform, mret, M_ret, Outcome_ret.

Lemma data_app_rest_eq w name data_app v c tr' :
  (fields ← lift (d ← as_mapping v;
                  keywords d [("component_id", VStr "keboola.app-data-app");
                              ("component", c);
                              ("data_app", Model.model_dump data_app);
                              ("authorization", data_app_authorization)]);
   new_configuration ← Model.create DataAppConfiguration fields;
   configuration_id ← lift (Model.getattr new_configuration "configuration_id");
   LOG.info created_data_app_log
     [VStr name; configuration_id];;
   mret new_configuration) w tr'
  = match data_app_finish w name data_app v c with
    | Raise e => (Raise e, tr')
    | Return (a, logs) => (Return a, tr' ++ logs)
    end.
Proof.
  unfold data_app_finish. unfold_run.
  destruct (as_mapping v) as [d|e]; [|done].
  destruct (keywords d _) as [fields|e]; [|done].
  destruct (validate w DataAppConfiguration fields) as [new|e]; [|done].
  by destruct (Model.getattr new "configuration_id") as [id|e].
Qed.

Lemma sql_rest_eq w transformation_id v c tr' :
  (fields ← lift (d ← as_mapping v;
                  keywords d [("component_id", VStr transformation_id);
                              ("component", c)]);
   new_configuration ← Model.create ComponentConfiguration fields;
   configuration_id ← lift (Model.getattr new_configuration "configuration_id");
   LOG.info created_transformation_log
     [VStr transformation_id; configuration_id];;
   mret new_configuration) w tr'
  = match sql_finish w transformation_id v c with
    | Raise e => (Raise e, tr')
    | Return (a, logs) => (Return a, tr' ++ logs)
    end.
Proof.
  unfold sql_finish. unfold_run.
  destruct (as_mapping v) as [d|e]; [|done].
  destruct (keywords d _) as [fields|e]; [|done].
  destruct (validate w ComponentConfiguration fields) as [new|e]; [|done].
  by destruct (Model.getattr new "configuration_id") as [id|e].
Qed.

Lemma create_data_app_supplied ctx name description slug user_query script size
    auto_suspend streamlit_config w tr :
  script ≠ [] →
  create_data_app ctx name description slug user_query (Some script) size
    auto_suspend streamlit_config w tr
  = match KeboolaClient.from_state (session_state ctx) with
    | Raise e => (Raise e, tr)
    | Return client =>
        match validate w DataApp
                (data_app_fields slug script size auto_suspend streamlit_config) with
        | Raise e => (Raise e, tr)
        | Return data_app =>
            attempt_run w tr
              (configs_post client "keboola.app-data-app"
                 (data_app_configuration name description slug script size
                    auto_suspend data_app))
              "keboola.app-data-app"
              "Error when creating new data app configuration: {}"
              (data_app_finish w name data_app)
        end
    end.
Proof.
  intros Hs. unfold create_data_app.
  destruct (KeboolaClient.from_state _) as [client|e]; [|done].
  rewrite bind_lift_Return.
  assert (Ht : negb (truthy (opt_str_list (Some script))) = false).
  { by destruct script. }
  rewrite Ht, bind_run.
  change (mret (M := M) (default [] (Some script)) w tr) with (Return script, tr).
  lazy beta iota. rewrite bind_run. unfold Model.create at 1.
  destruct (validate w DataApp _) as [data_app|e]; [|done].
  apply attempt_run_eq. intros. apply data_app_rest_eq.
Qed.

Lemma create_data_app_generated ctx name description slug user_query script size
    auto_suspend streamlit_config w tr :
  truthy (opt_str_list script) = false →
  create_data_app ctx name description slug user_query script size
    auto_suspend streamlit_config w tr
  = match KeboolaClient.from_state (session_state ctx) with
    | Raise e => (Raise e, tr)
    | Return client =>
        let prompt := data_app_prompt name description user_query in
        match ctx_generate w tr prompt ≫= script_of_response with
        | Raise e => (Raise e, tr ++ [EGenerate prompt])
        | Return lines =>
            let tr0 := tr ++ [EGenerate prompt;
                              ELogInfo "Generating using agent..." []] in
            match validate w DataApp
                    (data_app_fields slug lines size auto_suspend
                       streamlit_config) with
            | Raise e => (Raise e, tr0)
            | Return data_app =>
                attempt_run w tr0
                  (configs_post client "keboola.app-data-app"
                     (data_app_configuration name description slug lines size
                        auto_suspend data_app))
                  "keboola.app-data-app"
                  "Error when creating new data app configuration: {}"
                  (data_app_finish w name data_app)
            end
        end
    end.
Proof.
  intros Hs. unfold create_data_app.
  destruct (KeboolaClient.from_state _) as [client|e]; [|done].
  rewrite bind_lift_Return, Hs. cbn [negb].
  rewrite bind_run, bind_run. unfold _generate_data_app_script.
  rewrite bind_run, perform_run.
  destruct (ctx_generate w tr _) as [response|e]; [|done].
  cbn [mbind Outcome_bind]. unfold lift at 1.
  destruct (script_of_response response) as [lines|e]; [|done].
  rewrite bind_run. unfold LOG.info at 1. rewrite perform_run.
  change (mret (M := M) lines w ?t) with (Return lines, t).
  lazy beta iota. rewrite bind_run. unfold Model.create at 1.
  rewrite <- app_assoc. cbn [app].
  destruct (validate w DataApp _) as [data_app|e]; [|done].
  apply attempt_run_eq. intros. apply data_app_rest_eq.
Qed.

Lemma create_sql_transformation_run ctx name description sql_statements
    created_table_names w tr :
  create_sql_transformation ctx name description sql_statements
    created_table_names w tr
  = match sql_dialect w tr with
    | Raise e => (Raise e, tr ++ [ESqlDialect])
    | Return dialect =>
        match _get_sql_transformation_id_from_sql_dialect w dialect with
        | Raise e => (Raise e, tr ++ [ESqlDialect])
        | Return transformation_id =>
            let tr1 :=
              tr ++ [ESqlDialect;
                     ELogInfo "SQL dialect: {}, using transformation ID: {}"
                       [VStr dialect; VStr transformation_id]] in
            match _get_transformation_configuration w sql_statements name
                    created_table_names with
            | Raise e => (Raise e, tr1)
            | Return payload =>
                match KeboolaClient.from_state (session_state ctx) with
                | Raise e => (Raise e, tr1)
                | Return client =>
                    attempt_run w
                      (tr1 ++ [ELogInfo
                                 "Creating new transformation configuration: {} for component: {}."
                                 [VStr name; VStr transformation_id]])
                      (configs_post client transformation_id
                         (<["name" := VStr name]>
                            (<["description" := VStr description]>
                               (<["configuration" := Model.model_dump payload]> ∅))))
                      transformation_id
                      "Error when creating new transformation configuration: {}"
                      (sql_finish w transformation_id)
                end
            end
        end
    end.
Proof.
  unfold create_sql_transformation.
  rewrite bind_run. unfold get_sql_dialect. rewrite perform_run.
  destruct (sql_dialect w tr) as [dialect|e]; [|done].
  rewrite bind_run. unfold lift at 1.
  destruct (_get_sql_transformation_id_from_sql_dialect w dialect)
    as [transformation_id|e]; [|done].
  rewrite bind_run. unfold LOG.info at 1. rewrite perform_run.
  rewrite bind_run. unfold lift at 1. rewrite <- app_assoc. cbn [app].
  destruct (_get_transformation_configuration w _ _ _) as [payload|e]; [|done].
  destruct (KeboolaClient.from_state _) as [client|e]; [|done].
  rewrite bind_lift_Return, bind_run. unfold LOG.info at 1. rewrite perform_run.
  apply attempt_run_eq. intros. apply sql_rest_eq.
Qed.


(** [get_component_configuration_details], run. *)
Lemma configuration_details_run component_id configuration_id ctx w tr :
  get_component_configuration_details component_id configuration_id ctx w tr
  = match KeboolaClient.from_state (session_state ctx) with
    | Raise e => (Raise e, tr)
    | Return client =>
        let tr1 := tr ++ [EComponentDetails component_id] in
        let tr3 := before_metadata tr component_id configuration_id in
        let q := metadata_get client component_id configuration_id in
        match component_details w tr component_id with
        | Raise e => (Raise e, tr1)
        | Return component =>
            match sdk_configuration_detail w tr1 component_id configuration_id with
            | Raise e =>
                (Raise e,
                 tr1 ++ [ESdkConfigurationDetail component_id configuration_id])
            | Return raw_configuration =>
                match response_outcome (http w tr3 q) with
                | Raise e => (Raise e, tr3 ++ [EHttp q])
                | Return r_metadata =>
                    let tr5 :=
                      tr3 ++ [EHttp q;
                              ELogInfo
                                (if truthy r_metadata then
                                   "Retrieved configuration metadata for {} component with configuration {}."
                                 else
                                   "No metadata found for {} component with configuration {}.")
                                [VStr component_id; VStr configuration_id]] in
                    match as_mapping raw_configuration with
                    | Raise e => (Raise e, tr5)
                    | Return raw =>
                        (validate w ComponentConfiguration
                           (configuration_detail_fields raw component
                              component_id r_metadata),
                         tr5)
                    end
                end
            end
        end
    end.
Proof.
  unfold get_component_configuration_details.
  destruct (KeboolaClient.from_state _) as [client|e]; [|done].
  rewrite bind_lift_Return, bind_run. unfold _get_component_details.
  rewrite perform_run. lazy zeta.
  destruct (component_details w tr component_id) as [component|e]; [|done].
  rewrite bind_run. unfold configurations_detail. rewrite perform_run.
  destruct (sdk_configuration_detail w _ _ _) as [raw_configuration|e]; [|done].
  rewrite bind_run. unfold LOG.info at 1. rewrite perform_run.
  rewrite bind_run. unfold KeboolaServiceClient.get. rewrite get_run.
  lazy zeta. fold (metadata_get client component_id configuration_id).
  unfold before_metadata. rewrite <- !app_assoc. cbn [app].
  destruct (response_outcome _) as [r_metadata|e]; [|done].
  rewrite bind_run.
  destruct (truthy r_metadata); unfold LOG.info; rewrite perform_run;
    rewrite <- !app_assoc; cbn [app];
    (destruct (as_mapping raw_configuration) as [raw|e]; [|done]);
    by rewrite bind_lift_Return.
Qed.


(** ** Retrieval of configurations *)

(** C8.  With a session that holds the facade: when ids are given, both
    retrieval tools go by those ids and by nothing else, and
    [retrieve_components_configurations] gives the same run for every type
    filter; only without ids do they go by types (the caller's types after
    [_handle_component_types], or [transformation]).  One of the two helpers
    runs, never both. *)
Theorem explicit_ids_win ctx client component_types ids w tr :
  KeboolaClient.from_state (session_state ctx) = Return client →
  (ids ≠ [] →
     retrieve_components_configurations ctx component_types ids w tr
     = (configurations_by_ids w tr ids, tr ++ [ERetrieveByIds ids])
     ∧ (∀ other_types,
          retrieve_components_configurations ctx other_types ids w tr
          = retrieve_components_configurations ctx component_types ids w tr)
     ∧ retrieve_transformations_configurations ctx ids w tr
       = (configurations_by_ids w tr ids, tr ++ [ERetrieveByIds ids]))
  ∧ (ids = [] →
     retrieve_components_configurations ctx component_types ids w tr
     = (configurations_by_types w tr (_handle_component_types w component_types),
        tr ++ [ERetrieveByTypes (_handle_component_types w component_types)])
     ∧ retrieve_transformations_configurations ctx ids w tr
       = (configurations_by_types w tr ["transformation"],
          tr ++ [ERetrieveByTypes ["transformation"]])).
Proof.
  intros Hc. unfold retrieve_components_configurations,
    retrieve_transformations_configurations. split.
  - intros Hids. destruct ids as [|i ids]; [done |]. cbn [is_empty].
    by rewrite Hc, !bind_lift_Return.
  - intros ->. cbn [is_empty]. by rewrite Hc, !bind_lift_Return.
Qed.

Lemma explicit_ids_win_witness :
  retrieve_components_configurations sample_ctx ["extractor"]
    ["keboola.ex-aws-s3"] quiet_env []
  = (Return [], [ERetrieveByIds ["keboola.ex-aws-s3"]])
  ∧ retrieve_components_configurations sample_ctx ["extractor"] []
      quiet_env []
    = (Return [], [ERetrieveByTypes ["extractor"]]).
Proof.
  split.
  - refine (proj1 (proj1 (explicit_ids_win sample_ctx sample_client ["extractor"]
                            ["keboola.ex-aws-s3"] quiet_env [] _) _)).
    + reflexivity.
    + discriminate.
  - refine (proj1 (proj2 (explicit_ids_win sample_ctx sample_client ["extractor"]
                            [] quiet_env [] _) _)).
    + reflexivity.
    + reflexivity.
Defined.

(** ** Details of a configuration *)





(** ** Creation of a data app *)

Lemma data_app_configuration_parameters name description slug script size
    auto_suspend data_app :
  let cfg := VDict (data_app_configuration name description slug script size
                      auto_suspend data_app) in
  path cfg ["configuration"; "parameters"; "script"] = Some (str_list script)
  ∧ path cfg ["configuration"; "parameters"; "id"] = Some (VStr slug).
Proof. done. Qed.

(** C6.  When a non-empty script is supplied, [create_data_app] makes no
    generation call; every request it sends is a POST of a configuration
    whose [parameters.script] is the supplied script and whose
    [parameters.id] is the supplied slug; and that POST is the first thing
    it does once the session holds the facade and the [DataApp] model
    accepts its fields. *)
Theorem data_app_supplied_script ctx name description slug user_query script
    size auto_suspend streamlit_config w tr :
  script ≠ [] →
  let run := create_data_app ctx name description slug user_query (Some script)
               size auto_suspend streamlit_config w tr in
  ∃ evs,
    run.2 = tr ++ evs
    ∧ no_generate evs
    ∧ (∀ q, EHttp q ∈ evs →
            method q = POST
            ∧ ∃ cfg, body q = JsonBody cfg
                     ∧ path (VDict cfg) ["configuration"; "parameters"; "script"]
                       = Some (str_list script)
                     ∧ path (VDict cfg) ["configuration"; "parameters"; "id"]
                       = Some (VStr slug))
    ∧ (∀ client data_app,
         KeboolaClient.from_state (session_state ctx) = Return client →
         validate w DataApp
           (data_app_fields slug script size auto_suspend streamlit_config)
         = Return data_app →
         ∃ evs',
           evs = EHttp (configs_post client "keboola.app-data-app"
                          (data_app_configuration name description slug script
                             size auto_suspend data_app)) :: evs').
Proof.
  intros Hs run. unfold run. rewrite (create_data_app_supplied _ _ _ _ _ _ _ _ _ _ _ Hs).
  assert (Hnil : ∀ o : Outcome (gmap string value),
            ∃ evs, (o, tr).2 = tr ++ evs
                   ∧ no_generate evs
                   ∧ (∀ q, EHttp q ∈ evs →
                           method q = POST
                           ∧ ∃ cfg, body q = JsonBody cfg
                                    ∧ path (VDict cfg)
                                        ["configuration"; "parameters"; "script"]
                                      = Some (str_list script)
                                    ∧ path (VDict cfg)
                                        ["configuration"; "parameters"; "id"]
                                      = Some (VStr slug))).
  { intros o. exists []. split; [by rewrite app_nil_r |].
    split; [intros p Hp | intros q Hq]; by apply elem_of_nil in Hp || apply elem_of_nil in Hq. }
  destruct (KeboolaClient.from_state _) as [client|e].
  2: { destruct (Hnil (Raise e)) as (evs & H1 & H2 & H3).
       exists evs. split_and!; [done | done | done |]. by intros. }
  destruct (validate w DataApp _) as [data_app|e].
  2: { destruct (Hnil (Raise e)) as (evs & H1 & H2 & H3).
       exists evs. split_and!; [done | done | done |]. by intros. }
  destruct (attempt_run_trace w tr
              (configs_post client "keboola.app-data-app"
                 (data_app_configuration name description slug script size
                    auto_suspend data_app))
              "keboola.app-data-app"
              "Error when creating new data app configuration: {}"
              (data_app_finish w name data_app)
              (data_app_finish_logs w name data_app))
    as (evs & Htr & Hfollow & _).
  eexists. split; [exact Htr |]. split_and!.
  - intros p [Hp|Hp]%elem_of_cons; [done |].
    by apply (follow_up_no_generate _ Hfollow p).
  - intros q [Hq|Hq]%elem_of_cons.
    + injection Hq as ->. split; [done |]. eexists. split; [done |].
      apply data_app_configuration_parameters.
    + rewrite Forall_forall in Hfollow. by apply Hfollow in Hq.
  - intros client' data_app' [= <-] [= <-]. by eexists.
Qed.

Lemma data_app_supplied_script_witness :
  ∃ evs,
    (create_data_app sample_ctx "Sales" "..." "sales-app" None
       (Some ["print(1)"]) "tiny" 900 None quiet_env []).2 = [] ++ evs
    ∧ no_generate evs
    ∧ (∀ q, EHttp q ∈ evs →
            method q = POST
            ∧ ∃ cfg, body q = JsonBody cfg
                     ∧ path (VDict cfg) ["configuration"; "parameters"; "script"]
                       = Some (VList [VStr "print(1)"])
                     ∧ path (VDict cfg) ["configuration"; "parameters"; "id"]
                       = Some (VStr "sales-app"))
    ∧ (∀ client data_app,
         KeboolaClient.from_state (session_state sample_ctx) = Return client →
         validate quiet_env DataApp
           (data_app_fields "sales-app" ["print(1)"] "tiny" 900 None)
         = Return data_app →
         ∃ evs',
           evs = EHttp (configs_post client "keboola.app-data-app"
                          (data_app_configuration "Sales" "..." "sales-app"
                             ["print(1)"] "tiny" 900 data_app)) :: evs').
Proof.
  refine (data_app_supplied_script sample_ctx "Sales" "..." "sales-app" None
            ["print(1)"] "tiny" 900 None quiet_env [] _).
  discriminate.
Defined.

(** ** Failures of the create tools *)








End Tools.

(** * Further properties of the code *)

(** ** Sessions without a facade *)

Section Sessions.

Lemma from_state_errors ctx e :
  KeboolaClient.from_state (session_state ctx) = Raise e →
  (e = KeyError KeboolaClient.STATE_KEY
   ∧ session_state ctx !! KeboolaClient.STATE_KEY = None)
  ∨ (∃ shown,
       e = AssertionError ("Expected KeboolaClient, got: " +:+ shown)
       ∧ session_state ctx !! KeboolaClient.STATE_KEY
         = Some (KeboolaClient.Other shown)).
Proof.
  unfold KeboolaClient.from_state.
  destruct (session_state ctx !! KeboolaClient.STATE_KEY) as [[c|shown]|];
    intros [= <-]; eauto.
Qed.

(** X1.  When the session holds no facade (nothing under ['sapi_client'],
    which is a [KeyError], or an object of another class, which is an
    [AssertionError] whose message ends with that object), every tool raises
    that error and sends no request: the read tools, [create_data_app],
    [docs_query] and the description updates do nothing at all, and
    [create_sql_transformation], which looks the facade up only after the
    dialect, never returns and never reaches its POST. *)
Theorem tools_without_facade ctx e w tr :
  KeboolaClient.from_state (session_state ctx) = Raise e →
  let absent {A} : Outcome A * list Event := (Raise e, tr) in
  ((e = KeyError KeboolaClient.STATE_KEY
    ∧ session_state ctx !! KeboolaClient.STATE_KEY = None)
   ∨ (∃ shown,
        e = AssertionError ("Expected KeboolaClient, got: " +:+ shown)
        ∧ session_state ctx !! KeboolaClient.STATE_KEY
          = Some (KeboolaClient.Other shown)))
  ∧ (∀ component_id configuration_id,
       get_component_configuration_details component_id configuration_id ctx w tr
       = absent)
  ∧ (∀ types ids, retrieve_components_configurations ctx types ids w tr = absent)
  ∧ (∀ ids, retrieve_transformations_configurations ctx ids w tr = absent)
  ∧ (∀ name description slug user_query script size auto_suspend streamlit_config,
       create_data_app ctx name description slug user_query script size
         auto_suspend streamlit_config w tr = absent)
  ∧ (∀ query, docs_query ctx query w tr = absent)
  ∧ (∀ key bucket_id description,
       update_bucket_description key bucket_id description ctx w tr = absent)
  ∧ (∀ key table_id description,
       update_table_description key table_id description ctx w tr = absent)
  ∧ (∀ name description sql_statements created_table_names,
       let run := create_sql_transformation ctx name description sql_statements
                    created_table_names w tr in
       (∀ x, run.1 ≠ Return x)
       ∧ ∃ evs, run.2 = tr ++ evs ∧ requests evs = []).
Proof.
  intros H absent. unfold absent. split_and!.
  - by apply from_state_errors.
  - intros. unfold get_component_configuration_details. by rewrite H.
  - intros types ids. unfold retrieve_components_configurations.
    destruct (is_empty ids); by rewrite H.
  - intros ids. unfold retrieve_transformations_configurations.
    destruct (is_empty ids); by rewrite H.
  - intros. unfold create_data_app. by rewrite H.
  - intros. unfold docs_query. by rewrite H.
  - intros. unfold update_bucket_description. by rewrite H.
  - intros. unfold update_table_description. by rewrite H.
  - intros ? ? ? ?. lazy zeta. rewrite create_sql_transformation_run, H.
    destruct (sql_dialect w tr) as [dialect|e'].
    2: { split; [done |]. by eexists. }
    destruct (_get_sql_transformation_id_from_sql_dialect w dialect) as [tid|e'].
    2: { split; [done |]. by eexists. }
    lazy zeta.
    destruct (_get_transformation_configuration w _ _ _) as [p|e'];
      (split; [done |]); by eexists.
Qed.

Lemma tools_without_facade_witness :
  create_data_app {| session_state := ∅ |} "Sales" "..." "sales-app" None None
    "tiny" 900 None quiet_env []
  = (Raise (KeyError "sapi_client"), [])
  ∧ get_component_configuration_details "keboola.ex-aws-s3" "123"
      {| session_state := {[ "sapi_client" := KeboolaClient.Other "None" ]} |}
      quiet_env []
    = (Raise (AssertionError "Expected KeboolaClient, got: None"), []).
Proof.
  split.
  - refine (proj1 (proj2 (proj2 (proj2 (proj2
      (tools_without_facade {| session_state := ∅ |} (KeyError "sapi_client")
         quiet_env [] _)))))
      "Sales" "..." "sales-app" None None "tiny" 900%Z None).
    reflexivity.
  - refine (proj1 (proj2
      (tools_without_facade
         {| session_state := {[ "sapi_client" := KeboolaClient.Other "None" ]} |}
         (AssertionError "Expected KeboolaClient, got: None") quiet_env [] _))
      "keboola.ex-aws-s3" "123").
    reflexivity.
Defined.

End Sessions.

(** ** Headers and addresses of the requests *)

Section Headers.
Import RawKeboolaClient.

Lemma default_headers_lookup base token init_headers k :
  headers (__init__ base token init_headers) !! k
  = match default ∅ init_headers !! k with
    | Some v => Some v
    | None => default_header token k
    end.
Proof.
  unfold __init__. cbn [headers]. rewrite lookup_union.
  destruct (default ∅ init_headers !! k) as [v|] eqn:E.
  { match goal with |- Some _ ∪ ?o = _ => by destruct o end. }
  rewrite left_id by apply _. unfold default_header.
  destruct (String.eqb_spec k "X-StorageApi-Token") as [->|Hk1]; [done |].
  destruct (String.eqb_spec k "Content-Type") as [->|Hk2]; [done |].
  destruct (String.eqb_spec k "Accept-encoding") as [->|Hk3]; [done |].
  by rewrite !lookup_insert_ne, lookup_empty.
Qed.

Lemma merged_headers_rule base token init_headers call_headers q :
  req_headers q = merged_headers (__init__ base token init_headers) call_headers →
  header_rule token init_headers call_headers q.
Proof.
  intros Hq k. rewrite Hq. unfold merged_headers. rewrite lookup_union.
  rewrite default_headers_lookup.
  destruct (default ∅ call_headers !! k) as [v|].
  - match goal with |- Some _ ∪ ?o = _ => by destruct o end.
  - by rewrite left_id by apply _.
Qed.

(** X2.  Every request of the four verbs of a raw client goes to
    [base/endpoint] and carries, under each name, the header given to the
    call, else the one given to the constructor, else the default: the token
    under [X-StorageApi-Token], [application/json] as content type and
    [gzip] as accepted encoding. *)
Theorem request_headers base token init_headers call_headers endpoint params
    data w tr :
  let self := __init__ base token init_headers in
  let good q := url q = base +:+ "/" +:+ endpoint
                ∧ header_rule token init_headers call_headers q in
  (∃ q, sends (get self endpoint params call_headers) w tr q ∧ good q)
  ∧ (∃ q, sends (post self endpoint data call_headers) w tr q ∧ good q)
  ∧ (∃ q, sends (put self endpoint data call_headers) w tr q ∧ good q)
  ∧ (∃ q, sends (delete self endpoint call_headers) w tr q ∧ good q).
Proof.
  intros self good. unfold sends, good. split_and!.
  - eexists. rewrite get_run. split; [done |]. split; [done |].
    by apply (merged_headers_rule base).
  - eexists. rewrite post_run. split; [done |]. split; [done |].
    by apply (merged_headers_rule base).
  - eexists. rewrite put_run. split; [done |]. split; [done |].
    by apply (merged_headers_rule base).
  - eexists. rewrite delete_run. split; [done |]. split; [done |].
    by apply (merged_headers_rule base).
Qed.

End Headers.

Section Addresses.
Import KeboolaClient.

Lemma init_clients token url w tr c tr' :
  __init__ token url w tr = (Return c, tr') →
  KeboolaClient.token c = token
  ∧ _branch_id (storage_client_sync c) = "default"
  ∧ storage_client c = AsyncStorageClient.create (with_scheme url) token "v2"
  ∧ jobs_queue_client c = JobsQueueClient.create (queue_root c) token
  ∧ ai_service_client c = AIServiceClient.create (ai_root c) token.
Proof.
  intros H.
  destruct (init_returns _ _ _ _ _ _ H) as (Ht & i & F).
  rewrite (init_run _ _ _ _ _ F) in H. lazy zeta in H.
  destruct (String.eqb_spec token "") as [|_]; [done |].
  injection H as <- <-. done.
Qed.

Lemma raw_get_address self base token endpoint params w h :
  self = RawKeboolaClient.__init__ base token None →
  ∃ q, sends (RawKeboolaClient.get self endpoint params None) w h q
       ∧ url q = base +:+ "/" +:+ endpoint
       ∧ req_headers q !! "X-StorageApi-Token" = Some token.
Proof. intros ->. eexists. unfold sends. by rewrite get_run. Qed.

(** X3.  The clients of a constructed facade address their requests as
    follows, each with the token of the facade: the storage client at the
    connection URL (with its scheme), then [/v2/storage/] and the endpoint;
    the job queue at the queue root, then [/jobs/] and the job id; the AI
    service at the AI root, then [/docs/components/] and the component id.
    Nothing is normalised on the way, and the configurations of a component
    live under the branch [default]. *)
Theorem facade_requests token storage_api_url w tr c tr' :
  __init__ token storage_api_url w tr = (Return c, tr') →
  (∀ endpoint params w' h,
     ∃ q, sends (KeboolaServiceClient.get (storage_client c) endpoint params) w' h q
          ∧ url q = with_scheme storage_api_url +:+ "/v2/storage/" +:+ endpoint
          ∧ req_headers q !! "X-StorageApi-Token" = Some token)
  ∧ (∀ job_id w' h,
       ∃ q, sends (JobsQueueClient.get_job_detail (jobs_queue_client c) job_id) w' h q
            ∧ url q = queue_root c +:+ "/jobs/" +:+ job_id
            ∧ req_headers q !! "X-StorageApi-Token" = Some token)
  ∧ (∀ component_id w' h,
       ∃ q, sends (AIServiceClient.get_component_detail (ai_service_client c)
                     component_id) w' h q
            ∧ url q = ai_root c +:+ "/docs/components/" +:+ component_id
            ∧ req_headers q !! "X-StorageApi-Token" = Some token)
  ∧ (∀ component_id,
       configs_endpoint c component_id
       = "branch/default/components/" +:+ component_id +:+ "/configs").
Proof.
  intros H. destruct (init_clients _ _ _ _ _ _ H) as (Ht & Hsync & Hst & Hq & Ha).
  apply (f_equal KeboolaServiceClient.raw_client) in Hst, Hq, Ha.
  split_and!.
  - intros endpoint qparams w' h.
    destruct (raw_get_address _ _ _ endpoint qparams w' h Hst) as (q & ? & Hu & ?).
    exists q. split_and!; [done | | done]. by rewrite Hu, !str_app_assoc.
  - intros job_id w' h.
    destruct (raw_get_address _ _ _ ("jobs/" +:+ job_id) None w' h Hq)
      as (q & ? & Hu & ?).
    exists q. split_and!; [done | | done]. by rewrite Hu.
  - intros component_id w' h.
    destruct (raw_get_address _ _ _ ("docs/components/" +:+ component_id) None
                w' h Ha) as (q & ? & Hu & ?).
    exists q. split_and!; [done | | done]. by rewrite Hu.
  - intros component_id. unfold configs_endpoint. rewrite Hsync. reflexivity.
Qed.

Lemma facade_requests_witness :
  ∃ c, __init__ "token" "connection.keboola.com/" quiet_env [] = (Return c, [])
       ∧ ∃ q, sends (KeboolaServiceClient.get (storage_client c) "buckets" None)
                quiet_env [] q
              ∧ url q = "https://connection.keboola.com//v2/storage/buckets"
              ∧ req_headers q !! "X-StorageApi-Token" = Some "token".
Proof.
  eexists. split; [vm_compute; reflexivity |].
  exact (proj1 (facade_requests "token" "connection.keboola.com/" quiet_env []
                  _ [] eq_refl) "buckets" None quiet_env []).
Defined.

End Addresses.

(** ** The derived roots *)

Section DerivedRoots.
Import KeboolaClient.

(** X21.  The constructor of the facade is a function of its two arguments:
    it records nothing, and its outcome is the same in every environment
    and after every history; a URL that starts with neither ['http://'] nor
    ['https://'] is treated as the same URL behind ['https://'].  For a URL
    in which the marker ['connection.'] occurs once, a non-empty token gives
    a facade whose queue root is ['https://queue.'] followed by what follows
    the marker and whose AI root is ['https://ai.'] followed by the same
    text, and the empty token is refused by the SDK client with
    [ValueError]. *)
Theorem derived_roots_of_single_marker token url w tr :
  (∀ w' tr', (__init__ token url w' tr').1 = (__init__ token url w tr).1)
  ∧ (__init__ token url w tr).2 = tr
  ∧ (Str.startswith_any url ["http://"; "https://"] = false →
     __init__ token url w tr = __init__ token ("https://" +:+ url) w tr)
  ∧ (∀ pre rest,
       only_occurrence _PREFIX_STORAGE_API_URL url pre rest →
       (token ≠ "" →
        ∃ c, __init__ token url w tr = (Return c, tr)
             ∧ queue_root c = "https://queue." +:+ rest
             ∧ ai_root c = "https://ai." +:+ rest)
       ∧ (token = "" →
          __init__ token url w tr
          = (Raise (ValueError "Token is required."), tr))).
Proof.
  split_and!.
  - intros w' tr'. apply init_pure.
  - apply init_trace.
  - intros Hs. rewrite <- (with_scheme_missing _ Hs). by rewrite init_scheme.
  - intros pre rest Ho.
    destruct (only_occurrence_field _ _ _ _ marker_nonempty Ho) as [F Hf].
    destruct (find_marker_with_scheme url) as (k & _ & Hk & Hfind).
    rewrite F in Hfind. simpl in Hfind. split.
    + intros Ht.
      destruct (init_accepts token url w tr _ Ht Hfind) as (c & Hc & Hq & Ha).
      rewrite (second_field_with_scheme _ _ _ Hk), Hf in Hq, Ha.
      by exists c.
    + intros ->. by rewrite (init_run _ _ _ _ _ Hfind).
Qed.

Lemma derived_roots_of_single_marker_witness :
  only_occurrence "connection." "connection.eu.keboola.com" "" "eu.keboola.com"
  ∧ (∃ c, __init__ "token" "connection.eu.keboola.com" quiet_env []
          = (Return c, [])
          ∧ queue_root c = "https://queue.eu.keboola.com"
          ∧ ai_root c = "https://ai.eu.keboola.com")
  ∧ __init__ "" "connection.eu.keboola.com" quiet_env []
    = (Raise (ValueError "Token is required."), []).
Proof.
  assert (H : only_occurrence _PREFIX_STORAGE_API_URL
                "connection.eu.keboola.com" "" "eu.keboola.com").
  { apply (positions_only "connection.eu.keboola.com" "connection." 0);
      [done | reflexivity]. }
  split; [exact H |]. split.
  - refine (proj1 (proj2 (proj2 (proj2
      (derived_roots_of_single_marker "token" _ quiet_env []))) _ _ H) _).
    discriminate.
  - exact (proj2 (proj2 (proj2 (proj2
      (derived_roots_of_single_marker "" _ quiet_env []))) _ _ H) eq_refl).
Defined.

(** X22.  Whenever the constructor accepts a connection URL, no event
    happened, both derived roots start with the fixed [https] prefixes,
    whatever the scheme of the URL, and what follows the prefix is the text
    between the first occurrence of ['connection.'] in the URL (with its
    scheme) and the next occurrence, or the end of the URL when there is no
    other. *)
Theorem derived_roots_https token url w tr c tr' :
  __init__ token url w tr = (Return c, tr') →
  tr' = tr
  ∧ Str.startswith (queue_root c) "https://queue." = true
  ∧ Str.startswith (ai_root c) "https://ai." = true
  ∧ ∃ pre rest seg,
      first_occurrence _PREFIX_STORAGE_API_URL (with_scheme url) pre rest
      ∧ ((¬ occurs_in _PREFIX_STORAGE_API_URL rest ∧ seg = rest)
         ∨ ∃ post, first_occurrence _PREFIX_STORAGE_API_URL rest seg post)
      ∧ queue_root c = "https://queue." +:+ seg
      ∧ ai_root c = "https://ai." +:+ seg.
Proof.
  intros H.
  destruct (init_returns _ _ _ _ _ _ H) as (Ht & i & F).
  destruct (init_accepts token url w tr _ Ht F) as (c' & Hc & Hq & Ha).
  rewrite Hc in H. injection H as -> ->.
  split_and!; [done | rewrite Hq; apply startswith_app
              | rewrite Ha; apply startswith_app |].
  pose proof (find_first_occurrence _ _ _ F) as Hfirst.
  eexists _, _, _. split; [exact Hfirst |]. split; [| split; [exact Hq | exact Ha]].
  unfold second_field.
  destruct (Str.find (Str.drop _ (with_scheme url)) _) as [j|] eqn:G.
  - right. eexists. by apply find_first_occurrence.
  - left. split; [|done]. rewrite find_occurs. intros Hne. by apply Hne.
Qed.

Lemma derived_roots_https_witness :
  ∃ c, __init__ "token" "http://connection.eu.keboola.com" quiet_env []
       = (Return c, [])
       ∧ Str.startswith (queue_root c) "https://queue." = true
       ∧ Str.startswith (ai_root c) "https://ai." = true.
Proof.
  eexists. split; [vm_compute; reflexivity |].
  split.
  - exact (proj1 (proj2 (derived_roots_https "token"
             "http://connection.eu.keboola.com" quiet_env [] _ [] eq_refl))).
  - exact (proj1 (proj2 (proj2 (derived_roots_https "token"
             "http://connection.eu.keboola.com" quiet_env [] _ [] eq_refl)))).
Defined.

End DerivedRoots.

Section SchemeAndJobs.
Import KeboolaClient.

(** X4.  The normalisation of the connection URL yields a URL that starts
    with [http://] or [https://], leaves such a URL as it is (an [http] URL
    is not upgraded), and changes nothing when applied again. *)
Theorem with_scheme_normal storage_api_url :
  Str.startswith_any (with_scheme storage_api_url) ["http://"; "https://"] = true
  ∧ with_scheme (with_scheme storage_api_url) = with_scheme storage_api_url
  ∧ (with_scheme storage_api_url = storage_api_url
     ↔ Str.startswith_any storage_api_url ["http://"; "https://"] = true).
Proof.
  split_and!; [| apply with_scheme_idem |].
  - destruct (Str.startswith_any storage_api_url ["http://"; "https://"]) eqn:E.
    + unfold with_scheme. by rewrite E.
    + by rewrite (with_scheme_missing _ E).
  - split.
    + intros Heq.
      destruct (Str.startswith_any storage_api_url ["http://"; "https://"]) eqn:E; [done |].
      rewrite (with_scheme_missing _ E) in Heq.
      apply (f_equal String.length) in Heq.
      rewrite str_length_app in Heq. simpl in Heq. lia.
    + intros E. unfold with_scheme. by rewrite E.
Qed.

(** X5.  [create_job] sends one POST to [base/jobs] whose JSON body holds
    the component, the configuration and the mode [run], and nothing else;
    a failure of the transport is passed on, a status outside 2xx raises the
    error with the response, and a 2xx status returns the decoded job when
    the body is JSON and raises the decoding error when it is not. *)
Theorem create_job_request self component_id configuration_id w tr :
  ∃ q payload,
    status_contract
      (JobsQueueClient.create_job self component_id configuration_id) w tr q
    ∧ method q = POST
    ∧ url q = RawKeboolaClient.base_api_url (KeboolaServiceClient.raw_client self)
              +:+ "/" +:+ "jobs"
    ∧ body q = JsonBody payload
    ∧ payload !! "component" = Some (VStr component_id)
    ∧ payload !! "config" = Some (VStr configuration_id)
    ∧ payload !! "mode" = Some (VStr "run")
    ∧ ∀ k, k ∉ ["component"; "config"; "mode"] → payload !! k = None.
Proof.
  unfold JobsQueueClient.create_job.
  eexists _, (<["component" := VStr component_id]>
                (<["config" := VStr configuration_id]>
                   (<["mode" := VStr "run"]> ∅))).
  split; [apply response_outcome_contract, post_run |].
  split_and!; try done.
  intros k Hk. rewrite !not_elem_of_cons in Hk. destruct_and!.
  by rewrite !lookup_insert_ne, lookup_empty.
Qed.

End SchemeAndJobs.

(** ** Failures of the tools in front of and behind the POST *)

Section ToolFailures.

(** X6.  [create_sql_transformation] fails before it sends anything when
    the dialect cannot be determined, when the dialect has no transformation
    component, or when the payload cannot be built: the error of that step is
    the outcome and the trace holds no request. *)
Theorem sql_transformation_fails_before_post ctx name description
    sql_statements created_table_names w tr :
  let run := create_sql_transformation ctx name description sql_statements
               created_table_names w tr in
  (∀ e, sql_dialect w tr = Raise e → run = (Raise e, tr ++ [ESqlDialect]))
  ∧ (∀ dialect e,
       sql_dialect w tr = Return dialect →
       _get_sql_transformation_id_from_sql_dialect w dialect = Raise e →
       run = (Raise e, tr ++ [ESqlDialect]))
  ∧ (∀ dialect transformation_id e,
       sql_dialect w tr = Return dialect →
       _get_sql_transformation_id_from_sql_dialect w dialect
       = Return transformation_id →
       _get_transformation_configuration w sql_statements name created_table_names
       = Raise e →
       run.1 = Raise e
       ∧ ∃ evs, run.2 = tr ++ evs ∧ requests evs = []).
Proof.
  intros run. unfold run. rewrite create_sql_transformation_run. split_and!.
  - by intros e ->.
  - by intros dialect e -> ->.
  - intros dialect tid e -> -> ->. lazy zeta. split; [done |]. by eexists.
Qed.

(** X7.  Without a script ([None] or an empty list) [create_data_app] asks
    the generator once, and first.  When the generator fails, or answers
    with something that is not a non-empty string, the tool raises (the
    error of the generator, or [ValueError]) and has sent no request. *)
Theorem data_app_generation_failure ctx client name description slug user_query
    script size auto_suspend streamlit_config w tr :
  KeboolaClient.from_state (session_state ctx) = Return client →
  script = None ∨ script = Some [] →
  let run := create_data_app ctx name description slug user_query script size
               auto_suspend streamlit_config w tr in
  let prompt := data_app_prompt name description user_query in
  (∀ e, ctx_generate w tr prompt = Raise e →
        run = (Raise e, tr ++ [EGenerate prompt]))
  ∧ (∀ r, ctx_generate w tr prompt = Return r →
          (∀ s, r = VStr s → s = "") →
          run = (Raise (ValueError "Failed to generate data app from Claude"),
                 tr ++ [EGenerate prompt]))
  ∧ ∃ evs, run.2 = tr ++ EGenerate prompt :: evs ∧ no_generate evs.
Proof.
  intros Hc Hs run prompt. unfold run.
  assert (Ht : truthy (opt_str_list script) = false) by (by destruct Hs as [-> | ->]).
  rewrite (create_data_app_generated _ _ _ _ _ _ _ _ _ _ _ Ht), Hc. lazy zeta.
  fold prompt. split_and!.
  - by intros e ->.
  - intros r -> Hr. cbn [mbind Outcome_bind].
    assert (Hv : script_of_response r
                 = Raise (ValueError "Failed to generate data app from Claude")).
    { destruct r as [| | | |s| |]; try done. by rewrite (Hr s eq_refl). }
    by rewrite Hv.
  - destruct (ctx_generate w tr prompt ≫= script_of_response) as [lines|e].
    2: { exists []. split; [done |]. intros p Hp. by apply elem_of_nil in Hp. }
    destruct (validate w DataApp _) as [data_app|e].
    2: { eexists. split; [done |]. intros p Hp.
         apply list_elem_of_singleton in Hp. done. }
    destruct (attempt_run_trace w
                (tr ++ [EGenerate prompt; ELogInfo "Generating using agent..." []])
                (configs_post client "keboola.app-data-app"
                   (data_app_configuration name description slug lines size
                      auto_suspend data_app))
                "keboola.app-data-app"
                "Error when creating new data app configuration: {}"
                (data_app_finish w name data_app)
                (data_app_finish_logs w name data_app))
      as (evs & Htr & Hfollow & _).
    eexists. split; [by rewrite Htr, <- app_assoc |].
    intros p [Hp|[Hp|Hp]%elem_of_cons]%elem_of_cons; [done | done |].
    by apply (follow_up_no_generate _ Hfollow p).
Qed.

Lemma data_app_generation_failure_witness :
  create_data_app sample_ctx "Sales" "..." "sales-app" None (Some []) "tiny" 900
    None
    {| http := http quiet_env;
       sdk_configuration_detail := sdk_configuration_detail quiet_env;
       ctx_generate := λ _ _, Return (VStr "");
       sql_dialect := sql_dialect quiet_env;
       component_details := component_details quiet_env;
       configurations_by_ids := configurations_by_ids quiet_env;
       configurations_by_types := configurations_by_types quiet_env;
       _handle_component_types := _handle_component_types quiet_env;
       _get_sql_transformation_id_from_sql_dialect :=
         _get_sql_transformation_id_from_sql_dialect quiet_env;
       _get_transformation_configuration :=
         _get_transformation_configuration quiet_env;
       validate := validate quiet_env |} []
  = (Raise (ValueError "Failed to generate data app from Claude"),
     [] ++ [EGenerate (data_app_prompt "Sales" "..." None)]).
Proof.
  refine (proj1 (proj2 (data_app_generation_failure sample_ctx sample_client
            "Sales" "..." "sales-app" None (Some []) "tiny" 900%Z None _ [] _ _))
            (VStr "") _ _).
  - reflexivity.
  - by right.
  - reflexivity.
  - by intros s [= <-].
Defined.

(** X8.  In [get_component_configuration_details] the metadata fetch is
    as fatal as the two fetches in front of it whenever it fails (only an
    empty answer is tolerated): a transport failure, a status outside 2xx
    and an undecodable body each end the call with that error, after the
    component and the configuration body were fetched. *)
Theorem metadata_failure_is_fatal component_id configuration_id ctx client
    component raw_configuration w tr :
  KeboolaClient.from_state (session_state ctx) = Return client →
  component_details w tr component_id = Return component →
  sdk_configuration_detail w (tr ++ [EComponentDetails component_id])
    component_id configuration_id = Return raw_configuration →
  let run :=
    get_component_configuration_details component_id configuration_id ctx w tr in
  let tr3 := before_metadata tr component_id configuration_id in
  let q := metadata_get client component_id configuration_id in
  (∀ e, http w tr3 q = Raise e → run = (Raise e, tr3 ++ [EHttp q]))
  ∧ (∀ r, http w tr3 q = Return r →
          (status_code r < 200 ∨ 299 < status_code r)%Z →
          run = (Raise (HTTPStatusError r), tr3 ++ [EHttp q]))
  ∧ (∀ r, http w tr3 q = Return r → (200 ≤ status_code r ≤ 299)%Z →
          json_body r = None →
          run = (Raise JSONDecodeError, tr3 ++ [EHttp q])).
Proof.
  intros Hc H1 H2 run tr3 q. unfold run.
  rewrite configuration_details_run, Hc. lazy zeta. rewrite H1, H2.
  fold tr3 q. split_and!.
  - by intros e ->.
  - intros r -> Hs. cbn [response_outcome].
    destruct (is_success r) eqn:E; [|done]. apply is_success_iff in E. lia.
  - intros r -> Hs Hj. apply is_success_iff in Hs. cbn [response_outcome].
    by rewrite Hs, Hj.
Qed.

Lemma metadata_failure_is_fatal_witness :
  get_component_configuration_details "keboola.ex-aws-s3" "123" sample_ctx
    failing_env []
  = (Raise (HTTPStatusError error_response),
     before_metadata [] "keboola.ex-aws-s3" "123"
     ++ [EHttp (metadata_get sample_client "keboola.ex-aws-s3" "123")]).
Proof.
  refine (proj1 (proj2 (metadata_failure_is_fatal "keboola.ex-aws-s3" "123"
            sample_ctx sample_client (VDict ∅) (VDict ∅) failing_env [] _ _ _))
            error_response _ _).
  - reflexivity.
  - reflexivity.
  - reflexivity.
  - reflexivity.
  - right. simpl. lia.
Defined.



End ToolFailures.

(** ** Composition of the results *)

Section Composition.

(** X10.  In the composite of [get_component_configuration_details] the
    three explicit entries win over entries of the same name in the
    configuration body, which raises nothing, and every other entry of the
    body is kept: the tool hands to the validation [component_id] as given
    by the caller, the component as looked up, and the metadata as
    fetched. *)
Theorem details_explicit_keys_win component_id configuration_id ctx client
    component raw r_metadata w tr :
  KeboolaClient.from_state (session_state ctx) = Return client →
  component_details w tr component_id = Return component →
  sdk_configuration_detail w (tr ++ [EComponentDetails component_id])
    component_id configuration_id = Return (VDict raw) →
  response_outcome
    (http w (before_metadata tr component_id configuration_id)
       (metadata_get client component_id configuration_id))
  = Return r_metadata →
  ∃ fields,
    (get_component_configuration_details component_id configuration_id ctx w tr).1
    = validate w ComponentConfiguration fields
    ∧ fields !! "component_id" = Some (VStr component_id)
    ∧ fields !! "component" = Some component
    ∧ fields !! "metadata" = Some r_metadata
    ∧ ∀ k, k ∉ ["metadata"; "component_id"; "component"] →
           fields !! k = raw !! k.
Proof.
  intros Hc H1 H2 H3.
  exists (configuration_detail_fields raw component component_id r_metadata).
  rewrite configuration_details_run, Hc. lazy zeta. rewrite H1, H2, H3.
  cbn [as_mapping fst]. unfold configuration_detail_fields.
  split_and!; [done | by simplify_map_eq | by simplify_map_eq
              | by simplify_map_eq |].
  intros k Hk. rewrite !not_elem_of_cons in Hk. destruct_and!.
  by rewrite !lookup_insert_ne.
Qed.

Lemma details_explicit_keys_win_witness :
  ∃ fields,
    (get_component_configuration_details "keboola.ex-aws-s3" "123" sample_ctx
       {| http := http quiet_env;
          sdk_configuration_detail :=
            λ _ _ _, Return (VDict {[ "component_id" := VStr "other";
                                      "name" := VStr "demo" ]});
          ctx_generate := ctx_generate quiet_env;
          sql_dialect := sql_dialect quiet_env;
          component_details := component_details quiet_env;
          configurations_by_ids := configurations_by_ids quiet_env;
          configurations_by_types := configurations_by_types quiet_env;
          _handle_component_types := _handle_component_types quiet_env;
          _get_sql_transformation_id_from_sql_dialect :=
            _get_sql_transformation_id_from_sql_dialect quiet_env;
          _get_transformation_configuration :=
            _get_transformation_configuration quiet_env;
          validate := validate quiet_env |} []).1
    = Return fields
    ∧ fields !! "component_id" = Some (VStr "keboola.ex-aws-s3")
    ∧ fields !! "component" = Some (VDict ∅)
    ∧ fields !! "metadata" = Some (VDict ∅)
    ∧ ∀ k, k ∉ ["metadata"; "component_id"; "component"] →
           fields !! k
           = ({[ "component_id" := VStr "other"; "name" := VStr "demo" ]}
                : gmap string value) !! k.
Proof.
  refine (details_explicit_keys_win "keboola.ex-aws-s3" "123" sample_ctx
            sample_client (VDict ∅) _ (VDict ∅) _ [] _ _ _ _).
  - reflexivity.
  - reflexivity.
  - reflexivity.
  - reflexivity.
Defined.

(** X11.  The success of [create_sql_transformation]: when the dialect, the
    component id, the payload and the session are there, the POST carries
    exactly the name, the description and the dumped payload; when it is
    answered with a mapping without the keys [component_id] and [component],
    the component is found and the model accepts the answer extended by
    these two entries, the tool returns that model and its last act is the
    log entry [created_transformation_log], which shows the component id and
    the new configuration id, each between double quotes. *)
Theorem create_sql_transformation_success ctx name description sql_statements
    created_table_names dialect transformation_id payload client answer
    component new_configuration configuration_id w tr :
  sql_dialect w tr = Return dialect →
  _get_sql_transformation_id_from_sql_dialect w dialect = Return transformation_id →
  _get_transformation_configuration w sql_statements name created_table_names
  = Return payload →
  KeboolaClient.from_state (session_state ctx) = Return client →
  let tr0 :=
    tr ++ [ESqlDialect;
           ELogInfo "SQL dialect: {}, using transformation ID: {}"
             [VStr dialect; VStr transformation_id];
           ELogInfo
             "Creating new transformation configuration: {} for component: {}."
             [VStr name; VStr transformation_id]] in
  let data : gmap string value :=
    <["name" := VStr name]>
      (<["description" := VStr description]>
         (<["configuration" := VDict payload]> ∅)) in
  let q := configs_post client transformation_id data in
  response_outcome (http w tr0 q) = Return (VDict answer) →
  answer !! "component_id" = None → answer !! "component" = None →
  component_details w (tr0 ++ [EHttp q]) transformation_id = Return component →
  validate w ComponentConfiguration
    (<["component" := component]>
       (<["component_id" := VStr transformation_id]> answer))
  = Return new_configuration →
  new_configuration !! "configuration_id" = Some configuration_id →
  create_sql_transformation ctx name description sql_statements
    created_table_names w tr
  = (Return new_configuration,
     tr0 ++ [EHttp q; EComponentDetails transformation_id;
             ELogInfo created_transformation_log
               [VStr transformation_id; configuration_id]])
  ∧ ∀ k, k ∉ ["name"; "description"; "configuration"] → data !! k = None.
Proof.
  intros Hd Hi Hp Hc tr0 data q Hq Ha1 Ha2 Hcomp Hv Hid. split.
  - rewrite create_sql_transformation_run, Hd, Hi. lazy zeta.
    rewrite Hp, Hc, <- app_assoc. cbn [app]. fold tr0.
    unfold Model.model_dump. fold data. fold q.
    unfold attempt_run. rewrite Hq, Hcomp. unfold sql_finish.
    cbn [as_mapping mbind Outcome_bind keywords]. rewrite Ha1.
    rewrite lookup_insert_ne by done. rewrite Ha2.
    cbn [mbind Outcome_bind]. rewrite Hv. cbn [mbind Outcome_bind].
    unfold Model.getattr. rewrite Hid. done.
  - intros k Hk. rewrite !not_elem_of_cons in Hk. destruct_and!.
    unfold data. by rewrite !lookup_insert_ne, lookup_empty.
Qed.

End Composition.

(** ** The documentation tool *)

Section Docs.

Lemma strings_of_strs urls : strings_of (VStr <$> urls) = Some urls.
Proof. induction urls as [|u urls IH]; [done |]. cbn. by rewrite IH. Qed.

(** The request of [docs_question]. *)
Lemma docs_question_run self query w tr :
  let q := {| method := POST;
              url := RawKeboolaClient.base_api_url (KeboolaServiceClient.raw_client self)
                     +:+ "/" +:+ "docs/question";
              req_headers :=
                RawKeboolaClient.merged_headers (KeboolaServiceClient.raw_client self)
                  (Some {[ "Accept" := "application/json" ]});
              params := None;
              body := JsonBody {[ "query" := VStr query ]} |} in
  docs_question self query w tr
  = (response_outcome (http w tr q) ≫= DocsQuestionResponse.model_validate,
     tr ++ [EHttp q]).
Proof.
  intros q. unfold docs_question. rewrite bind_run, post_run.
  cbn [from_option id]. fold q. by destruct (response_outcome (http w tr q)).
Qed.

(** X12.  [docs_query] sends one POST to [docs/question] of the AI service
    with the JSON body [{query}] and the header [Accept: application/json].
    A failure of the request is its outcome.  An answer with a string under
    [text] gives that text; its sources are the strings under [sourceUrls],
    and the empty list when that key is absent, whatever else the answer
    holds; an answer without a string under [text] is a validation error. *)
Theorem docs_query_answer ctx client query w tr :
  KeboolaClient.from_state (session_state ctx) = Return client →
  ∃ q,
    (docs_query ctx query w tr).2 = tr ++ [EHttp q]
    ∧ method q = POST
    ∧ url q = ai_root client +:+ "/" +:+ "docs/question"
    ∧ body q = JsonBody {[ "query" := VStr query ]}
    ∧ req_headers q !! "Accept" = Some "application/json"
    ∧ (∀ e, response_outcome (http w tr q) = Raise e →
            (docs_query ctx query w tr).1 = Raise e)
    ∧ (∀ d answer,
         response_outcome (http w tr q) = Return (VDict d) →
         d !! "text" = Some (VStr answer) →
         (d !! "sourceUrls" = None →
          (docs_query ctx query w tr).1
          = Return {| DocsAnswer.text := answer; DocsAnswer.source_urls := [] |})
         ∧ (∀ urls, d !! "sourceUrls" = Some (str_list urls) →
                    (docs_query ctx query w tr).1
                    = Return {| DocsAnswer.text := answer;
                                DocsAnswer.source_urls := urls |}))
    ∧ (∀ d, response_outcome (http w tr q) = Return (VDict d) →
            (∀ s, d !! "text" ≠ Some (VStr s)) →
            ∃ msg, (docs_query ctx query w tr).1 = Raise (ValidationError msg)).
Proof.
  intros Hc. unfold docs_query.
  rewrite Hc, bind_lift_Return, bind_run, docs_question_run. lazy zeta.
  set (raw := KeboolaServiceClient.raw_client (KeboolaClient.ai_service_client client)).
  set (q := {| method := POST;
               url := RawKeboolaClient.base_api_url raw +:+ "/" +:+ "docs/question";
               req_headers :=
                 RawKeboolaClient.merged_headers raw
                   (Some {[ "Accept" := "application/json" ]});
               params := None;
               body := JsonBody {[ "query" := VStr query ]} |}).
  exists q. split_and!.
  - by destruct (response_outcome _ ≫= _).
  - done.
  - done.
  - done.
  - by apply lookup_union_Some_l.
  - by intros e ->.
  - intros d answer -> Ht. cbn [mbind Outcome_bind].
    unfold DocsQuestionResponse.model_validate. rewrite Ht. split.
    + by intros ->.
    + intros urls ->. unfold str_list. by rewrite strings_of_strs.
  - intros d -> Ht. cbn [mbind Outcome_bind].
    unfold DocsQuestionResponse.model_validate.
    destruct (d !! "text") as [[| | | |s| |]|] eqn:E; try by eexists.
    by destruct (Ht s).
Qed.

Lemma docs_query_answer_witness :
  ∃ q,
    (docs_query sample_ctx "how do I create a bucket" quiet_env []).2
    = [] ++ [EHttp q]
    ∧ url q = "https://ai.keboola.com/docs/question"
    ∧ (docs_query sample_ctx "how do I create a bucket" quiet_env []).1
      = Raise (ValidationError "text: Field required").
Proof.
  destruct (docs_query_answer sample_ctx sample_client
              "how do I create a bucket" quiet_env [] eq_refl)
    as (q & Htr & _ & Hu & _ & _ & _ & _ & Hmissing).
  exists q. split; [exact Htr |]. split; [exact Hu |]. reflexivity.
Defined.

End Docs.

(** ** Descriptions of buckets and tables *)

Section Descriptions.
Variable DESCRIPTION : string.

Lemma next_description_result l v :
  next_description DESCRIPTION l = Return v → v = VNone ∨ truthy v = true.
Proof.
  induction l as [|item l IH]; cbn [next_description]; [intros [= <-]; auto |].
  destruct (value_get item "key") as [k|]; cbn [mbind Outcome_bind]; [|done].
  destruct (eq_str k DESCRIPTION); [|apply IH].
  destruct (value_get item "value") as [x|]; cbn [mbind Outcome_bind]; [|done].
  destruct (truthy x) eqn:E; [intros [= <-]; auto | apply IH].
Qed.

Lemma next_description_skip skipped rest :
  Forall (passed_over DESCRIPTION) skipped →
  next_description DESCRIPTION (skipped ++ rest)
  = next_description DESCRIPTION rest.
Proof.
  induction 1 as [|item skipped (d & -> & Hd) _ IH]; [done |].
  cbn [app next_description value_get mbind Outcome_bind].
  destruct (eq_str (default VNone (d !! "key")) DESCRIPTION) eqn:E; [|done].
  destruct Hd as [Hd|Hd]; [done |]. by rewrite Hd.
Qed.

(** X13.  [extract_description] never returns an empty description: what
    it returns is [None] or a truthy value. *)
Theorem extract_description_never_falsy values v :
  extract_description DESCRIPTION values = Return v →
  v = VNone ∨ truthy v = true.
Proof.
  unfold extract_description.
  destruct (truthy (default VNone (values !! "description"))) eqn:E.
  - intros [= <-]. auto.
  - destruct (iterate _) as [l|]; cbn [mbind Outcome_bind]; [|done].
    apply next_description_result.
Qed.

(** X14.  Where [extract_description] takes the description from: a truthy
    entry [description] wins, whatever the metadata are; otherwise the value
    of the first metadata item with the description key and a truthy value,
    the items behind it not being looked at; [None] when there are no
    metadata or no such item; and the error of the iteration when the
    metadata are not iterable. *)
Theorem extract_description_sources values :
  let description := default VNone (values !! "description") in
  (truthy description = true →
   extract_description DESCRIPTION values = Return description)
  ∧ (truthy description = false →
     (values !! "metadata" = None →
      extract_description DESCRIPTION values = Return VNone)
     ∧ (∀ skipped item v rest,
          values !! "metadata" = Some (VList (skipped ++ VDict item :: rest)) →
          Forall (passed_over DESCRIPTION) skipped →
          item !! "key" = Some (VStr DESCRIPTION) →
          item !! "value" = Some v → truthy v = true →
          extract_description DESCRIPTION values = Return v)
     ∧ (∀ items,
          values !! "metadata" = Some (VList items) →
          Forall (passed_over DESCRIPTION) items →
          extract_description DESCRIPTION values = Return VNone)
     ∧ (∀ x e,
          values !! "metadata" = Some x → iterate x = Raise e →
          extract_description DESCRIPTION values = Raise e)).
Proof.
  intros description. unfold extract_description. fold description. split.
  - by intros ->.
  - intros ->. split_and!.
    + by intros ->.
    + intros skipped item v rest -> Hskip Hk Hv Ht.
      cbn [default from_option id iterate mbind Outcome_bind].
      rewrite (next_description_skip _ _ Hskip).
      cbn [next_description value_get mbind Outcome_bind]. rewrite Hk, Hv.
      cbn [default from_option id eq_str]. rewrite String.eqb_refl.
      cbn [mbind Outcome_bind]. by rewrite Ht.
    + intros items -> Hskip.
      cbn [default from_option id iterate mbind Outcome_bind].
      rewrite <- (app_nil_r items). by rewrite (next_description_skip _ _ Hskip).
    + intros x e -> He. cbn [default from_option id]. by rewrite He.
Qed.

(** X15.  What a description update writes is what [extract_description]
    reads back: from the payload of [update_bucket_description] and
    [update_table_description] it extracts the description, and [None] when
    the description is empty. *)
Theorem description_update_read_back description :
  extract_description DESCRIPTION (description_update DESCRIPTION description)
  = Return (if String.eqb description "" then VNone else VStr description).
Proof.
  unfold extract_description, description_update.
  rewrite lookup_insert_ne by done. rewrite lookup_insert_ne by done.
  rewrite lookup_empty. cbn [default from_option id truthy].
  rewrite lookup_insert_ne by done. rewrite lookup_insert_eq.
  cbn [default from_option id iterate mbind Outcome_bind next_description
       value_get].
  rewrite lookup_insert_eq. cbn [default from_option id eq_str].
  rewrite String.eqb_refl. cbn [mbind Outcome_bind].
  rewrite lookup_insert_ne by done. rewrite lookup_insert_eq.
  cbn [default from_option id truthy mbind Outcome_bind].
  by destruct (String.eqb description "").
Qed.

Lemma update_bucket_description_run bucket_id description ctx client w tr :
  KeboolaClient.from_state (session_state ctx) = Return client →
  let raw := KeboolaServiceClient.raw_client (KeboolaClient.storage_client client) in
  let q := {| method := POST;
              url := RawKeboolaClient.base_api_url raw +:+ "/"
                     +:+ ("buckets/" +:+ bucket_id +:+ "/metadata");
              req_headers := RawKeboolaClient.merged_headers raw None;
              params := None;
              body := JsonBody (description_update DESCRIPTION description) |} in
  update_bucket_description DESCRIPTION bucket_id description ctx w tr
  = (response_outcome (http w tr q) ≫= UpdateBucketDescriptionResponse.model_validate,
     tr ++ [EHttp q]).
Proof.
  intros Hc raw q. unfold update_bucket_description.
  rewrite Hc, bind_lift_Return, bind_run, service_post_run. fold raw q.
  by destruct (response_outcome (http w tr q)).
Qed.

Lemma update_table_description_run table_id description ctx client w tr :
  KeboolaClient.from_state (session_state ctx) = Return client →
  let raw := KeboolaServiceClient.raw_client (KeboolaClient.storage_client client) in
  let q := {| method := POST;
              url := RawKeboolaClient.base_api_url raw +:+ "/"
                     +:+ ("tables/" +:+ table_id +:+ "/metadata");
              req_headers := RawKeboolaClient.merged_headers raw None;
              params := None;
              body := JsonBody (description_update DESCRIPTION description) |} in
  update_table_description DESCRIPTION table_id description ctx w tr
  = (response_outcome (http w tr q) ≫= UpdateTableDescriptionResponse.model_validate,
     tr ++ [EHttp q]).
Proof.
  intros Hc raw q. unfold update_table_description.
  rewrite Hc, bind_lift_Return, bind_run, service_post_run. fold raw q.
  by destruct (response_outcome (http w tr q)).
Qed.

(** X16.  [update_bucket_description] sends one POST to
    [buckets/<id>/metadata] of the storage service, with the provider [user]
    and one metadata entry for the description.  From an answer that is a
    list whose first element holds strings under [value] and [timestamp] it
    returns these two with [success]; the other elements do not matter.  An
    answer that is not a non-empty list is a validation error, raised after
    the update was sent. *)
Theorem update_bucket_description_answer bucket_id description ctx client w tr :
  KeboolaClient.from_state (session_state ctx) = Return client →
  let run := update_bucket_description DESCRIPTION bucket_id description ctx w tr in
  ∃ q payload,
    run.2 = tr ++ [EHttp q]
    ∧ method q = POST
    ∧ url q = RawKeboolaClient.base_api_url
                (KeboolaServiceClient.raw_client (KeboolaClient.storage_client client))
              +:+ "/" +:+ ("buckets/" +:+ bucket_id +:+ "/metadata")
    ∧ body q = JsonBody payload
    ∧ payload !! "provider" = Some (VStr "user")
    ∧ payload !! "metadata"
      = Some (VList [VDict (<["key" := VStr DESCRIPTION]>
                              (<["value" := VStr description]> ∅))])
    ∧ (∀ e, response_outcome (http w tr q) = Raise e → run.1 = Raise e)
    ∧ (∀ entry others v ts,
         response_outcome (http w tr q) = Return (VList (VDict entry :: others)) →
         entry !! "value" = Some (VStr v) →
         entry !! "timestamp" = Some (VStr ts) →
         run.1 = Return {| UpdateBucketDescriptionResponse.success := true;
                           UpdateBucketDescriptionResponse.description := v;
                           UpdateBucketDescriptionResponse.timestamp := ts |})
    ∧ (∀ answer,
         response_outcome (http w tr q) = Return answer →
         (∀ x l, answer ≠ VList (x :: l)) →
         run.1 = Raise (ValidationError
                          "Expected input data in UpdateBucketDescriptionResponse to be non-empty list.")).
Proof.
  intros Hc run. unfold run.
  rewrite (update_bucket_description_run _ _ _ _ _ _ Hc). lazy zeta.
  eexists _, (description_update DESCRIPTION description).
  split_and!; try done.
  - by intros e ->.
  - intros entry others v ts -> Hv Hts. cbn [mbind Outcome_bind fst].
    unfold UpdateBucketDescriptionResponse.model_validate,
      UpdateBucketDescriptionResponse.extract_from_response.
    cbn [value_get mbind Outcome_bind]. rewrite Hv, Hts. done.
  - intros answer -> Hn. cbn [mbind Outcome_bind fst].
    unfold UpdateBucketDescriptionResponse.model_validate,
      UpdateBucketDescriptionResponse.extract_from_response.
    destruct answer as [| | | | |[|x l]|]; try done. by destruct (Hn x l).
Qed.

(** X17.  [update_table_description] sends one POST to
    [tables/<id>/metadata] with the same payload.  It reads the answer
    differently from the bucket update: the answer must be a mapping whose
    [metadata] list starts with an element holding strings under [value]
    and [timestamp]; a list, which is what the bucket update expects, has no
    [get] and raises [AttributeError], and a mapping without metadata is a
    validation error.  Both are raised after the update was sent. *)
Theorem update_table_description_answer table_id description ctx client w tr :
  KeboolaClient.from_state (session_state ctx) = Return client →
  let run := update_table_description DESCRIPTION table_id description ctx w tr in
  ∃ q,
    run.2 = tr ++ [EHttp q]
    ∧ method q = POST
    ∧ url q = RawKeboolaClient.base_api_url
                (KeboolaServiceClient.raw_client (KeboolaClient.storage_client client))
              +:+ "/" +:+ ("tables/" +:+ table_id +:+ "/metadata")
    ∧ body q = JsonBody (description_update DESCRIPTION description)
    ∧ (∀ answer entry others v ts,
         response_outcome (http w tr q) = Return (VDict answer) →
         answer !! "metadata" = Some (VList (VDict entry :: others)) →
         entry !! "value" = Some (VStr v) →
         entry !! "timestamp" = Some (VStr ts) →
         run.1 = Return {| UpdateTableDescriptionResponse.success := true;
                           UpdateTableDescriptionResponse.description := v;
                           UpdateTableDescriptionResponse.timestamp := ts |})
    ∧ (∀ items, response_outcome (http w tr q) = Return (VList items) →
                run.1 = Raise (AttributeError "get"))
    ∧ (∀ answer,
         response_outcome (http w tr q) = Return (VDict answer) →
         answer !! "metadata" = None ∨ answer !! "metadata" = Some (VList []) →
         ∃ msg, run.1 = Raise (ValidationError msg)).
Proof.
  intros Hc run. unfold run.
  rewrite (update_table_description_run _ _ _ _ _ _ Hc). lazy zeta.
  eexists. split_and!; try done.
  - intros answer entry others v ts -> Hm Hv Hts. cbn [mbind Outcome_bind fst].
    unfold UpdateTableDescriptionResponse.model_validate,
      UpdateTableDescriptionResponse.extract_metadata.
    rewrite Hm. cbn [default from_option id value_get mbind Outcome_bind].
    rewrite Hv, Hts. done.
  - by intros items ->.
  - intros answer -> Hm. cbn [mbind Outcome_bind fst].
    unfold UpdateTableDescriptionResponse.model_validate,
      UpdateTableDescriptionResponse.extract_metadata.
    destruct Hm as [-> | ->]; by eexists.
Qed.

End Descriptions.

Lemma extract_description_never_falsy_witness :
  let values : gmap string value :=
    {[ "description" := VStr "";
       "metadata" := VList [VDict {[ "key" := VStr "KBC.description";
                                     "value" := VStr "Sales data" ]}] ]} in
  extract_description "KBC.description" values = Return (VStr "Sales data")
  ∧ (VStr "Sales data" = VNone ∨ truthy (VStr "Sales data") = true).
Proof.
  intros values.
  assert (H : extract_description "KBC.description" values
              = Return (VStr "Sales data")) by reflexivity.
  split; [exact H |].
  exact (extract_description_never_falsy "KBC.description" values _ H).
Defined.

Lemma update_bucket_description_answer_witness :
  (update_bucket_description "KBC.description" "in.c-main" "Sales data"
     sample_ctx quiet_env []).1
  = Raise (ValidationError
             "Expected input data in UpdateBucketDescriptionResponse to be non-empty list.").
Proof.
  destruct (update_bucket_description_answer "KBC.description" "in.c-main"
              "Sales data" sample_ctx sample_client quiet_env [] eq_refl)
    as (q & payload & Htr & _ & _ & _ & _ & _ & _ & _ & H).
  injection Htr as <-.
  refine (H (VDict ∅) _ _).
  - reflexivity.
  - discriminate.
Defined.

Lemma update_table_description_answer_witness :
  ∃ msg,
    (update_table_description "KBC.description" "in.c-main.orders" "Orders"
       sample_ctx quiet_env []).1
    = Raise (ValidationError msg).
Proof.
  destruct (update_table_description_answer "KBC.description" "in.c-main.orders"
              "Orders" sample_ctx sample_client quiet_env [] eq_refl)
    as (q & Htr & _ & _ & _ & _ & _ & H).
  injection Htr as <-.
  refine (H ∅ _ _).
  - reflexivity.
  - by left.
Defined.

(** ** The generated script *)

Section GeneratedScript.

Lemma is_space_white_space c :
  Str.is_space c = bool_decide (Ascii.nat_of_ascii c ∈ white_space).
Proof. by destruct c as [[] [] [] [] [] [] [] []]; vm_compute. Qed.

Lemma lstrip_suffix s : ∃ a, s = a +:+ Str.lstrip s ∧ blank a = true.
Proof.
  induction s as [|c s (a & IH & Ha)]; [by exists "" |].
  cbn [Str.lstrip]. destruct (Str.is_space c) eqn:E.
  - exists (String c a). rewrite str_app_cons, <- IH. cbn [blank]. by rewrite E, Ha.
  - by exists "".
Qed.

Lemma rstrip_prefix s : ∃ b, s = Str.rstrip s +:+ b ∧ blank b = true.
Proof.
  induction s as [|c s (b & IH & Hb)]; [by exists "" |].
  cbn [Str.rstrip]. destruct (Str.rstrip s) as [|d r] eqn:E.
  - destruct (Str.is_space c) eqn:Hc.
    + exists (String c s). split; [done |]. cbn [blank]. rewrite Hc.
      rewrite str_app_nil_l in IH. by rewrite IH.
    + exists s. rewrite str_app_cons, str_app_nil_l. split; [done |].
      rewrite str_app_nil_l in IH. by rewrite IH.
  - exists b. rewrite str_app_cons. by rewrite <- IH.
Qed.

Lemma lstrip_head s c r : Str.lstrip s = String c r → Str.is_space c = false.
Proof.
  induction s as [|d s IH]; [done |]. cbn [Str.lstrip].
  destruct (Str.is_space d) eqn:E; [done |]. by intros [= <- _].
Qed.

Lemma rstrip_keeps_head c r :
  Str.is_space c = false → ∃ r', Str.rstrip (String c r) = String c r'.
Proof.
  intros Hc. cbn [Str.rstrip]. destruct (Str.rstrip r); rewrite ?Hc; by eexists.
Qed.

Lemma str_app_last_nonempty p c : p +:+ String c "" ≠ "".
Proof. by destruct p. Qed.

Lemma rstrip_last s p c :
  Str.rstrip s = p +:+ String c "" → Str.is_space c = false.
Proof.
  revert p. induction s as [|a s IH]; intros p; cbn [Str.rstrip].
  { intros H. by destruct (str_app_last_nonempty p c). }
  destruct (Str.rstrip s) as [|d r] eqn:E.
  - destruct (Str.is_space a) eqn:Ha.
    + intros H. by destruct (str_app_last_nonempty p c).
    + destruct p as [|x p]; rewrite ?str_app_cons, ?str_app_nil_l.
      * by intros [= ->].
      * intros [= _ H]. by destruct (str_app_last_nonempty p c).
  - destruct p as [|x p]; rewrite ?str_app_cons, ?str_app_nil_l.
    + done.
    + intros [= _ H]. by apply (IH p).
Qed.

Lemma strip_stripped s : stripped s (Str.strip s).
Proof.
  destruct (lstrip_suffix s) as (a & Ha & Hba).
  destruct (rstrip_prefix (Str.lstrip s)) as (b & Hb & Hbb).
  exists a, b. unfold Str.strip. rewrite <- Hb. split_and!; try done. split.
  - intros c r Hr. destruct (Str.lstrip s) as [|d l] eqn:E; [done |].
    pose proof (lstrip_head _ _ _ E) as Hd.
    destruct (rstrip_keeps_head d l Hd) as [r' Hr']. rewrite Hr' in Hr.
    by injection Hr as <- _.
  - intros p c. apply rstrip_last.
Qed.

Lemma lstrip_blank a u :
  blank a = true →
  (∀ c r, u = String c r → Str.is_space c = false) →
  Str.lstrip (a +:+ u) = u.
Proof.
  intros Ha Hu. induction a as [|x a IH]; rewrite ?str_app_cons, ?str_app_nil_l.
  - destruct u as [|c r]; [done |]. cbn [Str.lstrip]. by rewrite (Hu c r).
  - cbn [blank] in Ha. apply andb_true_iff in Ha as [Hx Ha].
    cbn [Str.lstrip]. rewrite Hx. by apply IH.
Qed.

Lemma rstrip_blank t b :
  blank b = true →
  (∀ p c, t = p +:+ String c "" → Str.is_space c = false) →
  Str.rstrip (t +:+ b) = t.
Proof.
  intros Hb. induction t as [|c r IH]; intros Ht; rewrite ?str_app_cons, ?str_app_nil_l.
  - clear Ht. induction b as [|x b IHb]; [done |].
    cbn [blank] in Hb. apply andb_true_iff in Hb as [Hx Hb].
    cbn [Str.rstrip]. by rewrite (IHb Hb), Hx.
  - cbn [Str.rstrip]. rewrite IH.
    + destruct r as [|d r]; [|done]. by rewrite (Ht "" c).
    + intros p x ->. by apply (Ht (String c p) x).
Qed.

Lemma blank_app a b : blank (a +:+ b) = blank a && blank b.
Proof.
  induction a as [|x a IH]; rewrite ?str_app_cons, ?str_app_nil_l; [done |].
  cbn [blank]. by rewrite IH, andb_assoc.
Qed.

Lemma lstrip_all_blank s : blank s = true → Str.lstrip s = "".
Proof.
  induction s as [|x s IH]; [done |]. cbn [blank Str.lstrip].
  intros [Hx Hs]%andb_true_iff. rewrite Hx. by apply IH.
Qed.

Lemma stripped_strip s t : stripped s t → t = Str.strip s.
Proof.
  intros (a & b & -> & Ha & Hb & Hfirst & Hlast). unfold Str.strip.
  destruct t as [|d t].
  - rewrite str_app_nil_l, lstrip_all_blank; [done |].
    by rewrite blank_app, Ha, Hb.
  - rewrite lstrip_blank; [by rewrite rstrip_blank | done |].
    rewrite str_app_cons. intros c r [= <- _]. by apply (Hfirst d t).
Qed.

Lemma find_nl_join f rest :
  ¬ occurs_in nl f → Str.find (f +:+ nl +:+ rest) nl = Some (String.length f).
Proof.
  induction f as [|c f IH]; intros Hf; rewrite ?str_app_cons, ?str_app_nil_l.
  - reflexivity.
  - cbn [Str.find]. 
    assert (Hc : Str.startswith (String c (f +:+ nl +:+ rest)) nl = false).
    { unfold nl. cbn [Str.startswith]. rewrite andb_true_r.
      apply Ascii.eqb_neq. intros <-. apply Hf. by exists "", f. }
    rewrite Hc, IH; [done |].
    intros (pre & post & ->). apply Hf. by exists (String c pre), post.
Qed.

Lemma nl_nonempty : nl ≠ "".
Proof. done. Qed.

Lemma split_join others : ∀ first n,
  Forall (λ f, ¬ occurs_in nl f) (first :: others) →
  String.length (join nl (first :: others)) ≤ n →
  Str.split_fuel n (join nl (first :: others)) nl = first :: others.
Proof.
  induction others as [|g rest IH]; intros first n Hf Hn.
  - cbn [join]. apply split_fuel_absent.
    apply Forall_inv in Hf. rewrite find_occurs in Hf.
    by destruct (Str.find first nl); [destruct Hf |].
  - change (join nl (first :: g :: rest))
      with (first +:+ nl +:+ join nl (g :: rest)) in *.
    pose proof (Forall_inv Hf) as Hfirst. apply Forall_inv_tail in Hf.
    pose proof (find_nl_join first (join nl (g :: rest)) Hfirst) as F.
    rewrite !str_length_app in Hn. change (String.length nl) with 1 in Hn.
    destruct n as [|n]; [lia |].
    rewrite (split_fuel_cut _ _ _ _ F), take_app. f_equal.
    rewrite <- drop_drop, drop_app.
    change (String.length nl) with (String.length nl).
    rewrite (drop_app nl). apply IH; [done | lia].
Qed.

Lemma split_fuel_nonempty n s sep : Str.split_fuel n s sep ≠ [].
Proof. destruct n; simpl; by destruct (Str.find s sep). Qed.

Lemma join_split_fuel n : ∀ s,
  String.length s ≤ n → join nl (Str.split_fuel n s nl) = s.
Proof.
  induction n as [|n IH]; intros s Hn.
  - destruct (Str.find s nl) as [i|] eqn:F.
    + apply find_Some_bound in F. change (String.length nl) with 1 in F. lia.
    + by rewrite split_fuel_absent.
  - destruct (Str.find s nl) as [i|] eqn:F.
    + rewrite (split_fuel_cut _ _ _ _ F).
      pose proof (find_Some_bound _ _ _ F) as Hb.
      change (String.length nl) with 1 in Hb.
      specialize (IH (Str.drop (i + String.length nl) s)).
      destruct (Str.split_fuel n _ nl) as [|h t] eqn:E.
      { by apply split_fuel_nonempty in E. }
      change (join nl (Str.take i s :: h :: t))
        with (Str.take i s +:+ nl +:+ join nl (h :: t)).
      rewrite IH by (rewrite length_drop; change (String.length nl) with 1; lia).
      apply find_Some in F as (H & Hi & _).
      symmetry. by apply position_occurrence.
    + by rewrite split_fuel_absent.
Qed.

Lemma occurs_in_strip sub s : occurs_in sub (Str.strip s) → occurs_in sub s.
Proof.
  intros (p & q & H). destruct (strip_stripped s) as (a & b & Hs & _).
  exists (a +:+ p), (q +:+ b). rewrite Hs at 1. rewrite H.
  by rewrite !str_app_assoc.
Qed.

(** No field of a split holds the separator. *)
Lemma find_take_None s sep i :
  sep ≠ "" → Str.find s sep = Some i → Str.find (Str.take i s) sep = None.
Proof.
  intros Hsep F.
  assert (0 < String.length sep) by (destruct sep; simpl; [done | lia]).
  destruct (Str.find (Str.take i s) sep) as [j|] eqn:G; [exfalso | done].
  pose proof (find_Some_bound _ _ _ G) as Hb.
  pose proof (find_Some_bound _ _ _ F) as Hb'.
  rewrite length_take in Hb by lia.
  destruct (find_first_occurrence _ _ _ G) as [Ht _].
  apply find_Some in F as (_ & _ & Hlow).
  assert (Hs : s = Str.take j (Str.take i s) +:+ sep
                   +:+ (Str.drop (j + String.length sep) (Str.take i s)
                        +:+ Str.drop i s)).
  { rewrite <- (take_drop i s) at 1. rewrite Ht at 1. by rewrite !str_app_assoc. }
  apply occurrence_position in Hs as [Hs _].
  rewrite length_take in Hs by (rewrite length_take by lia; lia).
  rewrite Hlow in Hs by lia. done.
Qed.

Lemma split_fuel_fields sep :
  sep ≠ "" → ∀ n s, String.length s ≤ n →
  Forall (λ p, ¬ occurs_in sep p) (Str.split_fuel n s sep).
Proof.
  intros Hsep.
  assert (0 < String.length sep) by (destruct sep; simpl; [done | lia]).
  assert (Hnone : ∀ p, Str.find p sep = None → ¬ occurs_in sep p).
  { intros p Hp Ho. by apply find_occurs in Ho. }
  induction n as [|n IH]; intros s Hn.
  - destruct (Str.find s sep) as [i|] eqn:F.
    + apply find_Some_bound in F. lia.
    + rewrite split_fuel_absent by done. repeat constructor. by apply Hnone.
  - destruct (Str.find s sep) as [i|] eqn:F.
    + rewrite (split_fuel_cut _ _ _ _ F). constructor.
      * by apply Hnone, find_take_None.
      * apply IH. pose proof (find_Some_bound _ _ _ F). rewrite length_drop. lia.
    + rewrite split_fuel_absent by done. repeat constructor. by apply Hnone.
Qed.

(** Every text is its lines joined by line feeds. *)
Lemma lines_of_text response :
  ∃ first others,
    response = join nl (first :: others)
    ∧ Forall (λ f, ¬ occurs_in nl f) (first :: others).
Proof.
  pose proof (join_split_fuel (String.length response) response (le_n _)) as Hj.
  pose proof (split_fuel_fields nl nl_nonempty (String.length response)
                response (le_n _)) as Hf.
  destruct (Str.split_fuel _ response nl) as [|first others] eqn:E.
  { by apply split_fuel_nonempty in E. }
  by exists first, others.
Qed.

(** The comprehension, on a text given by its lines. *)
Lemma script_lines_of_join first others :
  Forall (λ f, ¬ occurs_in nl f) (first :: others) →
  script_lines_of (join nl (first :: others))
  = Return (Str.strip <$> filter kept_line (first :: others)).
Proof.
  intros Hf. unfold script_lines_of, Str.split.
  change (String.eqb nl "") with false. cbn [mbind Outcome_bind].
  rewrite (split_join others first _ Hf (le_n _)). do 2 f_equal.
  apply list_filter_iff. intros f. unfold kept_line.
  rewrite andb_true_iff, !negb_true_iff.
  destruct (String.eqb_spec (Str.strip f) "") as [He|He]; split; intros [? ?]; done.
Qed.

Lemma kept_line_clean f :
  ¬ occurs_in nl f → kept_line f →
  Str.strip f ≠ "" ∧ trimmed (Str.strip f)
  ∧ Str.startswith (Str.strip f) "```" = false
  ∧ ¬ occurs_in nl (Str.strip f).
Proof.
  intros Hf [Hne Hfence]. split_and!; [done | | done |].
  - by destruct (strip_stripped f) as (a & b & _ & _ & _ & Ht).
  - by intros Ho%occurs_in_strip.
Qed.

(** X18.  What [_generate_data_app_script] makes of a response.  White
    space is what Python takes for it among the code points below 256, and
    [strip] removes all of it from both ends and nothing else.  Every
    response is a list of lines joined by line feeds, and its script holds,
    in their order, the stripped forms of the lines that are neither blank
    nor, once stripped, start with a code fence.  So every response yields a
    script, and each line of it is non-empty, has no white space at either
    end, does not start with a fence and holds no line feed. *)
Theorem script_lines_clean :
  (∀ c, Str.is_space c = bool_decide (Ascii.nat_of_ascii c ∈ white_space))
  ∧ (∀ s t, stripped s t ↔ t = Str.strip s)
  ∧ (∀ response, ∃ first others,
       response = join nl (first :: others)
       ∧ Forall (λ f, ¬ occurs_in nl f) (first :: others))
  ∧ (∀ first others,
       Forall (λ f, ¬ occurs_in nl f) (first :: others) →
       script_lines_of (join nl (first :: others))
       = Return (Str.strip <$> filter kept_line (first :: others)))
  ∧ (∀ response, ∃ lines,
       script_lines_of response = Return lines
       ∧ Forall (λ line,
                   line ≠ "" ∧ trimmed line
                   ∧ Str.startswith line "```" = false
                   ∧ ¬ occurs_in nl line) lines).
Proof.
  split_and!.
  - apply is_space_white_space.
  - intros s t. split; [apply stripped_strip | intros ->; apply strip_stripped].
  - apply lines_of_text.
  - apply script_lines_of_join.
  - intros response.
    destruct (lines_of_text response) as (first & others & -> & Hf).
    rewrite (script_lines_of_join _ _ Hf). eexists. split; [done |].
    apply Forall_fmap, Forall_forall. intros f [Hk Hin]%list_elem_of_filter.
    rewrite Forall_forall in Hf. by apply kept_line_clean; [apply Hf |].
Qed.

End GeneratedScript.

(** ** The data app that is posted *)

Section PostedDataApp.


(** X20.  The [DataApp] model of [create_data_app] gets the theme of the
    caller only when one with at least one entry is given; without one, or
    with an empty one, it gets the default theme.  When the model rejects
    its fields, a call with a supplied script ends with that error before
    anything is sent. *)
Theorem data_app_model_fields ctx client name description slug user_query script
    size auto_suspend streamlit_config w tr :
  let fields := data_app_fields slug script size auto_suspend streamlit_config in
  (fields !! "streamlit"
   = Some (VDict (match streamlit_config with
                  | Some theme =>
                      if decide (map_to_list theme = []) then default_streamlit_config
                      else theme
                  | None => default_streamlit_config
                  end)))
  ∧ fields !! "slug" = Some (VStr slug)
  ∧ fields !! "script" = Some (str_list script)
  ∧ fields !! "size" = Some (VStr size)
  ∧ fields !! "autoSuspendAfterSeconds" = Some (VInt auto_suspend)
  ∧ (∀ e, script ≠ [] →
          KeboolaClient.from_state (session_state ctx) = Return client →
          validate w DataApp fields = Raise e →
          create_data_app ctx name description slug user_query (Some script)
            size auto_suspend streamlit_config w tr = (Raise e, tr)).
Proof.
  intros fields. split_and!; unfold fields; [unfold data_app_fields ..|].
  - rewrite !lookup_insert_ne by done. rewrite lookup_insert_eq.
    do 2 f_equal. destruct streamlit_config as [theme|]; [|done].
    cbn [truthy]. destruct (decide _) as [->|Hn]; [done |].
    by destruct (map_to_list theme).
  - by rewrite lookup_insert_eq.
  - by simplify_map_eq.
  - by simplify_map_eq.
  - by simplify_map_eq.
  - intros e Hs Hc Hv.
    by rewrite (create_data_app_supplied _ _ _ _ _ _ _ _ _ _ _ Hs), Hc, Hv.
Qed.

End PostedDataApp.

Lemma script_lines_clean_witness :
  script_lines_of (" print(1)" +:+ nl +:+ String (Ascii.ascii_of_nat 160) ""
                   +:+ nl +:+ "```python")
  = Return ["print(1)"].
Proof.
  refine (proj1 (proj2 (proj2 (proj2 script_lines_clean))) " print(1)"
            [String (Ascii.ascii_of_nat 160) ""; "```python"] _).
  repeat constructor; intros Ho%find_occurs; by apply Ho.
Defined.


(** An environment whose models add a configuration id. *)
Lemma create_sql_transformation_success_witness :
  let w := {| http := http quiet_env;
              sdk_configuration_detail := sdk_configuration_detail quiet_env;
              ctx_generate := ctx_generate quiet_env;
              sql_dialect := sql_dialect quiet_env;
              component_details := component_details quiet_env;
              configurations_by_ids := configurations_by_ids quiet_env;
              configurations_by_types := configurations_by_types quiet_env;
              _handle_component_types := _handle_component_types quiet_env;
              _get_sql_transformation_id_from_sql_dialect :=
                _get_sql_transformation_id_from_sql_dialect quiet_env;
              _get_transformation_configuration :=
                _get_transformation_configuration quiet_env;
              validate := λ _ fields,
                Return (<["configuration_id" := VStr "42"]> fields) |} in
  (create_sql_transformation sample_ctx "demo" "a demo"
     ["CREATE TABLE t1 AS SELECT 1"] ["t1"] w []).1
  = Return (<["configuration_id" := VStr "42"]>
              (<["component" := VDict ∅]>
                 (<["component_id" := VStr "keboola.snowflake-transformation"]> ∅))).
Proof.
  intros w.
  refine (f_equal fst (proj1 (create_sql_transformation_success sample_ctx "demo"
            "a demo" ["CREATE TABLE t1 AS SELECT 1"] ["t1"] "snowflake"
            "keboola.snowflake-transformation" ∅ sample_client ∅ (VDict ∅)
            _ (VStr "42") w [] _ _ _ _ _ _ _ _ _ _))).
  - reflexivity.
  - reflexivity.
  - reflexivity.
  - reflexivity.
  - reflexivity.
  - reflexivity.
  - reflexivity.
  - reflexivity.
  - reflexivity.
  - reflexivity.
Defined.
